(** * Flight-dynamics core of [rocket-aero.py]

    A shallow embedding of the [Rocket] class ([src/rocket-aero.py], lines
    70-273) and proofs of the properties its specification states about it.

    Numbers.  The program computes with Python and NumPy floats.  They are
    modelled here by the real numbers [R]: every arithmetic operation is the
    exact one, [np.linalg.norm] is the Euclidean norm, and [math.sin],
    [math.cos], [math.asin] and [math.acos] are the real functions.  Rounding,
    infinities and NaN are outside the model.  A float literal with a zero
    fraction ([0.0], [1.0], [343.0]) is written as the integer it denotes.

    Effects.  [Rocket.update] mutates the object in place and either returns
    a telemetry dictionary or raises.  The only operation of [update] that
    can raise is the Python float division [self.thrust / self.max_thrust]
    (line 221), which raises [ZeroDivisionError] when [max_thrust] is zero;
    the NumPy divisions are guarded and do not raise.  [update] is therefore
    a function from the object's fields and the arguments to the fields
    after the call together with the outcome of the call.

    The particle system ([self.particles]) draws random numbers and is read
    only by the renderer: its list is not among the fields of [Rocket]
    here, and [update] covers lines 172-231.  It is modelled on its own,
    with the draws as an argument, together with the exhaust step of lines
    233-238, the key handlers and the frame of [main], and the arithmetic
    of three drawing functions.  Not modelled: [self.orientation_matrix],
    which is written once by the constructor and never read, and the
    OpenGL and pygame calls. *)

From Stdlib Require Import Reals Lra Lia List Bool.
Import ListNotations.

Open Scope R_scope.

(** ** Comparisons and the Python built-ins used by the class *)

Definition Rgtb (x y : R) : bool := if Rgt_dec x y then true else false.
Definition Rltb (x y : R) : bool := if Rlt_dec x y then true else false.
Definition Rleb (x y : R) : bool := if Rle_dec x y then true else false.

(** [max(a, b)] keeps [a] unless [b > a]; [min(a, b)] keeps [a] unless
    [b < a]. *)
Definition py_max (a b : R) : R := if Rgtb b a then b else a.
Definition py_min (a b : R) : R := if Rltb b a then b else a.

(** [np.clip(x, lo, hi)]. *)
Definition np_clip (x lo hi : R) : R := py_min (py_max x lo) hi.

(** [x % m] on floats, for a positive modulus: [x - m * floor (x / m)]. *)
Definition py_mod (x m : R) : R := x - m * IZR (Int_part (x / m)).

Definition radians (x : R) : R := x * (PI / 180).
Definition degrees (x : R) : R := x * (180 / PI).

(** ** Three-dimensional vectors and matrices (NumPy arrays of shape 3 and
    3x3) *)

Record Vec3 : Type := vec { vx : R; vy : R; vz : R }.

Definition vadd (a b : Vec3) : Vec3 :=
  vec (vx a + vx b) (vy a + vy b) (vz a + vz b).
Definition vneg (a : Vec3) : Vec3 := vec (- vx a) (- vy a) (- vz a).
Definition vscale (k : R) (a : Vec3) : Vec3 :=
  vec (k * vx a) (k * vy a) (k * vz a).
Definition vtimes (a : Vec3) (k : R) : Vec3 :=
  vec (vx a * k) (vy a * k) (vz a * k).
Definition vdiv (a : Vec3) (k : R) : Vec3 :=
  vec (vx a / k) (vy a / k) (vz a / k).
Definition dot (a b : Vec3) : R := vx a * vx b + vy a * vy b + vz a * vz b.
Definition cross (a b : Vec3) : Vec3 :=
  vec (vy a * vz b - vz a * vy b)
      (vz a * vx b - vx a * vz b)
      (vx a * vy b - vy a * vx b).
Definition norm (a : Vec3) : R := sqrt (vx a ^ 2 + vy a ^ 2 + vz a ^ 2).

Record Mat3 : Type := mat { row0 : Vec3; row1 : Vec3; row2 : Vec3 }.

Definition col0 (m : Mat3) : Vec3 := vec (vx (row0 m)) (vx (row1 m)) (vx (row2 m)).
Definition col1 (m : Mat3) : Vec3 := vec (vy (row0 m)) (vy (row1 m)) (vy (row2 m)).
Definition col2 (m : Mat3) : Vec3 := vec (vz (row0 m)) (vz (row1 m)) (vz (row2 m)).

Definition matvec (m : Mat3) (v : Vec3) : Vec3 :=
  vec (dot (row0 m) v) (dot (row1 m) v) (dot (row2 m) v).
Definition vecmat (v : Vec3) (m : Mat3) : Vec3 :=
  vec (dot v (col0 m)) (dot v (col1 m)) (dot v (col2 m)).
Definition matmul (a b : Mat3) : Mat3 :=
  mat (vecmat (row0 a) b) (vecmat (row1 a) b) (vecmat (row2 a) b).

(** ** The smoke trail: [deque(maxlen=60)] of positions *)

Definition trail_maxlen : nat := 60.

Definition add_point (points : list Vec3) (p : Vec3) : list Vec3 :=
  let points' := points ++ [p] in
  if (trail_maxlen <? length points')%nat then tl points' else points'.

(** ** The state: the fields of a [Rocket] object *)

Record Rocket : Type := {
  mass : R;
  fuel_mass : R;
  dry_mass : R;
  velocity : Vec3;
  position : Vec3;
  angular_velocity : Vec3;
  thrust : R;
  max_thrust : R;
  drag_coefficient : R;
  reference_area : R;
  engine_temperature : R;
  structural_stress : R;
  fuel_consumption_rate : R;
  max_q : R;
  trail : list Vec3;
  pitch : R;
  yaw : R;
  roll : R
}.

(** [Rocket.__init__]. *)
Definition Rocket_init : Rocket :=
  {| mass := 5000; fuel_mass := 3000; dry_mass := 2000;
     velocity := vec 0 0 0; position := vec 0 500 0;
     angular_velocity := vec 0 0 0;
     thrust := 75000; max_thrust := 200000;
     drag_coefficient := 0.45; reference_area := 10;
     engine_temperature := 300; structural_stress := 0;
     fuel_consumption_rate := 5; max_q := 0;
     trail := [];
     pitch := 0; yaw := 0; roll := 0 |}.

(** Field assignments [self.f = x]. *)

Definition set_mass (x : R) (s : Rocket) : Rocket :=
  {| mass := x; fuel_mass := fuel_mass s; dry_mass := dry_mass s;
     velocity := velocity s; position := position s;
     angular_velocity := angular_velocity s; thrust := thrust s;
     max_thrust := max_thrust s; drag_coefficient := drag_coefficient s;
     reference_area := reference_area s;
     engine_temperature := engine_temperature s;
     structural_stress := structural_stress s;
     fuel_consumption_rate := fuel_consumption_rate s; max_q := max_q s;
     trail := trail s; pitch := pitch s; yaw := yaw s; roll := roll s |}.

Definition set_fuel_mass (x : R) (s : Rocket) : Rocket :=
  {| mass := mass s; fuel_mass := x; dry_mass := dry_mass s;
     velocity := velocity s; position := position s;
     angular_velocity := angular_velocity s; thrust := thrust s;
     max_thrust := max_thrust s; drag_coefficient := drag_coefficient s;
     reference_area := reference_area s;
     engine_temperature := engine_temperature s;
     structural_stress := structural_stress s;
     fuel_consumption_rate := fuel_consumption_rate s; max_q := max_q s;
     trail := trail s; pitch := pitch s; yaw := yaw s; roll := roll s |}.

Definition set_velocity (x : Vec3) (s : Rocket) : Rocket :=
  {| mass := mass s; fuel_mass := fuel_mass s; dry_mass := dry_mass s;
     velocity := x; position := position s;
     angular_velocity := angular_velocity s; thrust := thrust s;
     max_thrust := max_thrust s; drag_coefficient := drag_coefficient s;
     reference_area := reference_area s;
     engine_temperature := engine_temperature s;
     structural_stress := structural_stress s;
     fuel_consumption_rate := fuel_consumption_rate s; max_q := max_q s;
     trail := trail s; pitch := pitch s; yaw := yaw s; roll := roll s |}.

Definition set_position (x : Vec3) (s : Rocket) : Rocket :=
  {| mass := mass s; fuel_mass := fuel_mass s; dry_mass := dry_mass s;
     velocity := velocity s; position := x;
     angular_velocity := angular_velocity s; thrust := thrust s;
     max_thrust := max_thrust s; drag_coefficient := drag_coefficient s;
     reference_area := reference_area s;
     engine_temperature := engine_temperature s;
     structural_stress := structural_stress s;
     fuel_consumption_rate := fuel_consumption_rate s; max_q := max_q s;
     trail := trail s; pitch := pitch s; yaw := yaw s; roll := roll s |}.

Definition set_angular_velocity (x : Vec3) (s : Rocket) : Rocket :=
  {| mass := mass s; fuel_mass := fuel_mass s; dry_mass := dry_mass s;
     velocity := velocity s; position := position s; angular_velocity := x;
     thrust := thrust s; max_thrust := max_thrust s;
     drag_coefficient := drag_coefficient s;
     reference_area := reference_area s;
     engine_temperature := engine_temperature s;
     structural_stress := structural_stress s;
     fuel_consumption_rate := fuel_consumption_rate s; max_q := max_q s;
     trail := trail s; pitch := pitch s; yaw := yaw s; roll := roll s |}.

Definition set_thrust (x : R) (s : Rocket) : Rocket :=
  {| mass := mass s; fuel_mass := fuel_mass s; dry_mass := dry_mass s;
     velocity := velocity s; position := position s;
     angular_velocity := angular_velocity s; thrust := x;
     max_thrust := max_thrust s; drag_coefficient := drag_coefficient s;
     reference_area := reference_area s;
     engine_temperature := engine_temperature s;
     structural_stress := structural_stress s;
     fuel_consumption_rate := fuel_consumption_rate s; max_q := max_q s;
     trail := trail s; pitch := pitch s; yaw := yaw s; roll := roll s |}.

Definition set_engine_temperature (x : R) (s : Rocket) : Rocket :=
  {| mass := mass s; fuel_mass := fuel_mass s; dry_mass := dry_mass s;
     velocity := velocity s; position := position s;
     angular_velocity := angular_velocity s; thrust := thrust s;
     max_thrust := max_thrust s; drag_coefficient := drag_coefficient s;
     reference_area := reference_area s; engine_temperature := x;
     structural_stress := structural_stress s;
     fuel_consumption_rate := fuel_consumption_rate s; max_q := max_q s;
     trail := trail s; pitch := pitch s; yaw := yaw s; roll := roll s |}.

Definition set_structural_stress (x : R) (s : Rocket) : Rocket :=
  {| mass := mass s; fuel_mass := fuel_mass s; dry_mass := dry_mass s;
     velocity := velocity s; position := position s;
     angular_velocity := angular_velocity s; thrust := thrust s;
     max_thrust := max_thrust s; drag_coefficient := drag_coefficient s;
     reference_area := reference_area s;
     engine_temperature := engine_temperature s; structural_stress := x;
     fuel_consumption_rate := fuel_consumption_rate s; max_q := max_q s;
     trail := trail s; pitch := pitch s; yaw := yaw s; roll := roll s |}.

Definition set_max_q (x : R) (s : Rocket) : Rocket :=
  {| mass := mass s; fuel_mass := fuel_mass s; dry_mass := dry_mass s;
     velocity := velocity s; position := position s;
     angular_velocity := angular_velocity s; thrust := thrust s;
     max_thrust := max_thrust s; drag_coefficient := drag_coefficient s;
     reference_area := reference_area s;
     engine_temperature := engine_temperature s;
     structural_stress := structural_stress s;
     fuel_consumption_rate := fuel_consumption_rate s; max_q := x;
     trail := trail s; pitch := pitch s; yaw := yaw s; roll := roll s |}.

Definition set_trail (x : list Vec3) (s : Rocket) : Rocket :=
  {| mass := mass s; fuel_mass := fuel_mass s; dry_mass := dry_mass s;
     velocity := velocity s; position := position s;
     angular_velocity := angular_velocity s; thrust := thrust s;
     max_thrust := max_thrust s; drag_coefficient := drag_coefficient s;
     reference_area := reference_area s;
     engine_temperature := engine_temperature s;
     structural_stress := structural_stress s;
     fuel_consumption_rate := fuel_consumption_rate s; max_q := max_q s;
     trail := x; pitch := pitch s; yaw := yaw s; roll := roll s |}.

Definition set_pitch (x : R) (s : Rocket) : Rocket :=
  {| mass := mass s; fuel_mass := fuel_mass s; dry_mass := dry_mass s;
     velocity := velocity s; position := position s;
     angular_velocity := angular_velocity s; thrust := thrust s;
     max_thrust := max_thrust s; drag_coefficient := drag_coefficient s;
     reference_area := reference_area s;
     engine_temperature := engine_temperature s;
     structural_stress := structural_stress s;
     fuel_consumption_rate := fuel_consumption_rate s; max_q := max_q s;
     trail := trail s; pitch := x; yaw := yaw s; roll := roll s |}.

Definition set_yaw (x : R) (s : Rocket) : Rocket :=
  {| mass := mass s; fuel_mass := fuel_mass s; dry_mass := dry_mass s;
     velocity := velocity s; position := position s;
     angular_velocity := angular_velocity s; thrust := thrust s;
     max_thrust := max_thrust s; drag_coefficient := drag_coefficient s;
     reference_area := reference_area s;
     engine_temperature := engine_temperature s;
     structural_stress := structural_stress s;
     fuel_consumption_rate := fuel_consumption_rate s; max_q := max_q s;
     trail := trail s; pitch := pitch s; yaw := x; roll := roll s |}.

Definition set_roll (x : R) (s : Rocket) : Rocket :=
  {| mass := mass s; fuel_mass := fuel_mass s; dry_mass := dry_mass s;
     velocity := velocity s; position := position s;
     angular_velocity := angular_velocity s; thrust := thrust s;
     max_thrust := max_thrust s; drag_coefficient := drag_coefficient s;
     reference_area := reference_area s;
     engine_temperature := engine_temperature s;
     structural_stress := structural_stress s;
     fuel_consumption_rate := fuel_consumption_rate s; max_q := max_q s;
     trail := trail s; pitch := pitch s; yaw := yaw s; roll := x |}.

(** ** Orientation *)

(** [get_rotation_matrix]: [Ry @ Rx @ Rz]. *)
Definition get_rotation_matrix (s : Rocket) : Mat3 :=
  let pitch_rad := radians (pitch s) in
  let yaw_rad := radians (yaw s) in
  let roll_rad := radians (roll s) in
  let cos_p := cos pitch_rad in let sin_p := sin pitch_rad in
  let cos_y := cos yaw_rad in let sin_y := sin yaw_rad in
  let cos_r := cos roll_rad in let sin_r := sin roll_rad in
  let Rx := mat (vec 1 0 0)
                (vec 0 cos_p (- sin_p))
                (vec 0 sin_p cos_p) in
  let Ry := mat (vec cos_y 0 sin_y)
                (vec 0 1 0)
                (vec (- sin_y) 0 cos_y) in
  let Rz := mat (vec cos_r (- sin_r) 0)
                (vec sin_r cos_r 0)
                (vec 0 0 1) in
  matmul (matmul Ry Rx) Rz.

(** [get_thrust_vector]. *)
Definition get_thrust_vector (s : Rocket) : Vec3 :=
  let local_thrust := vec 0 1 0 in
  let rotation_matrix := get_rotation_matrix s in
  matvec rotation_matrix local_thrust.

(** ** Aerodynamics *)

(** [calculate_drag]. *)
Definition calculate_drag (s : Rocket) (air_density : R) : Vec3 :=
  let v_magnitude := norm (velocity s) in
  if Rgtb v_magnitude 0.1 then
    let drag_force_magnitude :=
      0.5 * air_density * v_magnitude ^ 2 * drag_coefficient s
      * reference_area s in
    let drag_direction := vdiv (vneg (velocity s)) v_magnitude in
    vscale drag_force_magnitude drag_direction
  else vec 0 0 0.

(** [calculate_lift].  Both failed guards and a zero [lift_dir_magnitude]
    fall through to the final [return] of the zero vector. *)
Definition calculate_lift (s : Rocket) (air_density : R) : Vec3 :=
  let v_magnitude := norm (velocity s) in
  if Rgtb v_magnitude 1 then
    let thrust_dir := get_thrust_vector s in
    let vel_normalized := vdiv (velocity s) v_magnitude in
    let cross_product := cross vel_normalized thrust_dir in
    let cross_magnitude := norm cross_product in
    if Rgtb cross_magnitude 0.01 then
      let angle_of_attack := asin (py_min cross_magnitude 1) in
      let lift_coefficient := 2 * PI * sin angle_of_attack in
      let lift_magnitude :=
        0.5 * air_density * v_magnitude ^ 2 * Rabs lift_coefficient
        * reference_area s in
      let lift_direction := cross (velocity s) cross_product in
      let lift_dir_magnitude := norm lift_direction in
      if Rgtb lift_dir_magnitude 0 then
        let lift_direction := vdiv lift_direction lift_dir_magnitude in
        vscale lift_magnitude lift_direction
      else vec 0 0 0
    else vec 0 0 0
  else vec 0 0 0.

(** [calculate_dynamic_pressure]. *)
Definition calculate_dynamic_pressure (s : Rocket) (air_density : R) : R :=
  let v_magnitude := norm (velocity s) in
  0.5 * air_density * v_magnitude ^ 2.

(** [get_angle_of_attack]. *)
Definition get_angle_of_attack (s : Rocket) : R :=
  let v_magnitude := norm (velocity s) in
  if Rgtb v_magnitude 0.1 then
    let thrust_dir := get_thrust_vector s in
    let vel_normalized := vdiv (velocity s) v_magnitude in
    let dot_product := dot thrust_dir vel_normalized in
    degrees (acos (np_clip dot_product (-1) 1))
  else 0.

(** ** Telemetry *)

(** The dictionary returned by [get_telemetry], one field per key. *)
Record Telemetry : Type := {
  t_drag : R;
  t_lift : R;
  t_thrust : R;
  t_velocity : R;
  t_altitude : R;
  t_aoa : R;
  t_dynamic_pressure : R;
  t_max_q : R;
  t_g_force : R;
  t_temperature : R;
  t_fuel : R;
  t_twr : R;
  t_mach : R;
  t_thrust_direction : Vec3
}.

(** [get_telemetry]. *)
Definition get_telemetry (s : Rocket) : Telemetry :=
  let v_magnitude := norm (velocity s) in
  let mach_number := v_magnitude / 343 in
  let thrust_direction := get_thrust_vector s in
  let drag := calculate_drag s 1.225 in
  let lift := calculate_lift s 1.225 in
  let thrust_vector := vscale (thrust s) thrust_direction in
  let aoa := get_angle_of_attack s in
  let dynamic_pressure := calculate_dynamic_pressure s 1.225 in
  let twr := if Rgtb (mass s) 0 then thrust s / (mass s * 9.81) else 0 in
  {| t_drag := norm drag;
     t_lift := norm lift;
     t_thrust := norm thrust_vector;
     t_velocity := v_magnitude;
     t_altitude := vy (position s);
     t_aoa := aoa;
     t_dynamic_pressure := dynamic_pressure;
     t_max_q := max_q s;
     t_g_force := structural_stress s;
     t_temperature := engine_temperature s;
     t_fuel := fuel_mass s;
     t_twr := twr;
     t_mach := mach_number;
     t_thrust_direction := thrust_direction |}.

(** ** The simulation step, [Rocket.update] *)

Inductive Exception : Type := ZeroDivisionError.

Inductive Outcome (A : Type) : Type :=
| Returned (a : A)
| Raised (e : Exception).
Arguments Returned {A} a.
Arguments Raised {A} e.

(** Lines 178-186: fuel burn, mass, flameout. *)
Definition burn_fuel (s : Rocket) (dt : R) : Rocket :=
  if Rgtb (thrust s) 0 && Rgtb (fuel_mass s) 0 then
    let fuel_used := fuel_consumption_rate s * dt in
    let s := set_fuel_mass (py_max 0 (fuel_mass s - fuel_used)) s in
    let s := set_mass (dry_mass s + fuel_mass s) s in
    if Rleb (fuel_mass s) 0 then set_thrust 0 s else s
  else
    set_mass (dry_mass s + fuel_mass s) s.

(** Lines 188-196: the Euler angles advance and wrap, the angular velocity
    decays. *)
Definition rotate (s : Rocket) (dt : R) : Rocket :=
  let s := set_pitch (pitch s + vx (angular_velocity s) * dt) s in
  let s := set_yaw (yaw s + vy (angular_velocity s) * dt) s in
  let s := set_roll (roll s + vz (angular_velocity s) * dt) s in
  let s := set_pitch (py_mod (pitch s) 360) s in
  let s := set_yaw (py_mod (yaw s) 360) s in
  let s := set_roll (py_mod (roll s) 360) s in
  set_angular_velocity (vtimes (angular_velocity s) 0.92) s.

(** Lines 198-205: the local [total_force]. *)
Definition total_force (s : Rocket) (air_density gravity : R) : Vec3 :=
  let thrust_direction := get_thrust_vector s in
  let drag := calculate_drag s air_density in
  let lift := calculate_lift s air_density in
  let thrust_vector := vscale (thrust s) thrust_direction in
  let gravity_force := vec 0 (- gravity * mass s) 0 in
  vadd (vadd (vadd thrust_vector drag) lift) gravity_force.

(** Lines 207-210: the local [acceleration]. *)
Definition acceleration (s : Rocket) (air_density gravity : R) : Vec3 :=
  if Rgtb (mass s) 0 then vdiv (total_force s air_density gravity) (mass s)
  else vec 0 0 0.

(** Lines 212-219: the [max_q] watermark and the structural load. *)
Definition record_loads (s : Rocket) (air_density gravity : R) : Rocket :=
  let dynamic_pressure := calculate_dynamic_pressure s air_density in
  let s' := set_max_q (py_max (max_q s) dynamic_pressure) s in
  let force_magnitude := norm (total_force s air_density gravity) in
  if Rgtb (mass s') 0 then
    set_structural_stress ((force_magnitude / mass s') / 9.81) s'
  else
    set_structural_stress 0 s'.

(** Lines 223-224: semi-implicit Euler, the position uses the new
    velocity. *)
Definition euler (s : Rocket) (acceleration : Vec3) (dt : R) : Rocket :=
  let s := set_velocity (vadd (velocity s) (vtimes acceleration dt)) s in
  set_position (vadd (position s) (vtimes (velocity s) dt)) s.

(** Lines 226-231: the ground plane [y = 0]. *)
Definition ground_collision (s : Rocket) : Rocket :=
  if Rltb (vy (position s)) 0 then
    let s :=
      set_position (vec (vx (position s)) 0 (vz (position s))) s in
    if Rltb (vy (velocity s)) 0 then
      let s := set_velocity
                 (vec (vx (velocity s)) (- vy (velocity s) * 0.3)
                      (vz (velocity s))) s in
      let s := set_velocity
                 (vec (vx (velocity s) * 0.7) (vy (velocity s))
                      (vz (velocity s))) s in
      set_velocity
        (vec (vx (velocity s)) (vy (velocity s)) (vz (velocity s) * 0.7)) s
    else s
  else s.

(** Lines 176-196: trail point, propulsion, orientation. *)
Definition propel (s : Rocket) (dt : R) : Rocket :=
  let s := set_trail (add_point (trail s) (position s)) s in
  let s := burn_fuel s dt in
  rotate s dt.

(** Lines 176-219: the fields when line 221 is reached. *)
Definition before_temperature (s : Rocket) (dt air_density gravity : R)
  : Rocket :=
  record_loads (propel s dt) air_density gravity.

(** Lines 176-224 when line 221 does not raise: the fields when the ground
    test of line 226 is reached. *)
Definition before_collision (s : Rocket) (dt air_density gravity : R)
  : Rocket :=
  let s0 := propel s dt in
  let acceleration := acceleration s0 air_density gravity in
  let s := record_loads s0 air_density gravity in
  let s :=
    set_engine_temperature (300 + (thrust s / max_thrust s) * 2000) s in
  euler s acceleration dt.

(** [update]: the fields after the call, and its outcome.  Past the ground
    test the method only feeds the particle system and reads the
    telemetry. *)
Definition update (s : Rocket) (dt air_density gravity : R)
  : Rocket * Outcome Telemetry :=
  if Rleb dt 0 then (s, Returned (get_telemetry s))
  else
    let s1 := before_temperature s dt air_density gravity in
    if Req_dec_T (max_thrust s1) 0 then (s1, Raised ZeroDivisionError)
    else
      let s2 := ground_collision (before_collision s dt air_density gravity) in
      (s2, Returned (get_telemetry s2)).

(** The driver's loop body calls [update] once per tick; a call that raises
    ends the program with the fields as they were left. *)
Record Tick : Type := { tick_dt : R; tick_air_density : R; tick_gravity : R }.

Fixpoint run (ticks : list Tick) (s : Rocket) : Rocket * option Exception :=
  match ticks with
  | [] => (s, None)
  | t :: ticks' =>
      match update s (tick_dt t) (tick_air_density t) (tick_gravity t) with
      | (s', Returned _) => run ticks' s'
      | (s', Raised e) => (s', Some e)
      end
  end.

(** ** States and runs the properties refer to *)

(** A rocket as the driver can leave it: the tank has run dry and the
    throttle key has been pressed once since (line 787). *)
Definition spent_throttled : Rocket :=
  set_thrust 1000 (set_mass 2000 (set_fuel_mass 0 Rocket_init)).

(** The ticks of a run at a fixed step and environment. *)
Definition constant_ticks (n : nat) (dt rho g : R) : list Tick :=
  repeat {| tick_dt := dt; tick_air_density := rho; tick_gravity := g |} n.

(** No ground contact during the next [n] ticks: at each of them the
    height computed by the Euler update, which the ground test of
    line 226 reads, is not below 0. *)
Fixpoint airborne (n : nat) (s : Rocket) (dt rho g : R) : Prop :=
  match n with
  | O => True
  | S n' =>
      0 <= vy (position (before_collision s dt rho g))
      /\ airborne n' (fst (update s dt rho g)) dt rho g
  end.

(** An empty airframe: no dry mass, no fuel, throttle closed. *)
Definition massless : Rocket :=
  {| mass := 0; fuel_mass := 0; dry_mass := 0;
     velocity := vec 0 0 0; position := vec 0 500 0;
     angular_velocity := vec 0 0 0;
     thrust := 0; max_thrust := 200000;
     drag_coefficient := 0.45; reference_area := 10;
     engine_temperature := 300; structural_stress := 0;
     fuel_consumption_rate := 5; max_q := 0;
     trail := [];
     pitch := 0; yaw := 0; roll := 0 |}.

(** A rocket with the throttle closed and something to weigh. *)
Definition falling (s : Rocket) : Prop :=
  thrust s = 0 /\ 0 < dry_mass s + fuel_mass s /\ max_thrust s <> 0.

(** ** The particle system, [ParticleSystem] (lines 9-29) *)

(** One particle dictionary: the keys ['pos'], ['vel'], ['life'],
    ['size']. *)
Record Particle : Type := {
  p_pos : Vec3;
  p_vel : Vec3;
  p_life : R;
  p_size : R
}.

(** The three random draws of one turn of the loop of [emit]:
    [np.random.randn(3)] twice and [np.random.uniform(0.3, 0.6)]. *)
Record Draw : Type := {
  d_pos : Vec3;
  d_vel : Vec3;
  d_size : R
}.

(** [emit], with the draws of its [i]-th turn given by [draws i]. *)
Definition emit (particles : list Particle) (position velocity : Vec3)
  (count : nat) (draws : nat -> Draw) : list Particle :=
  fold_left
    (fun particles i =>
       let particle :=
         {| p_pos := vadd position (vtimes (d_pos (draws i)) 2);
            p_vel := vadd velocity (vtimes (d_vel (draws i)) 5);
            p_life := 1;
            p_size := d_size (draws i) |} in
       particles ++ [particle])
    (seq 0 count) particles.

(** Lines 25-27: what one turn of the loop of [ParticleSystem.update]
    writes into the particle. *)
Definition age (dt : R) (p : Particle) : Particle :=
  {| p_pos := vadd (p_pos p) (vtimes (p_vel p) dt);
     p_vel := vtimes (p_vel p) 0.95;
     p_life := p_life p - dt * 2;
     p_size := p_size p |}.

(** The loop of [ParticleSystem.update] runs over a copy of the list and
    removes from the list itself.  When the particle [p] of the current
    turn has died, [self.particles] holds the survivors of the earlier
    turns, then [p], then the particles still to come.  [list.remove(p)]
    scans from the front: it stops at [p] by identity, but before that
    it compares every earlier element with [p] by [==].  Two distinct
    particle dictionaries hold distinct NumPy arrays under ['pos'], whose
    comparison has no truth value, so that comparison raises [ValueError].
    Hence the removal succeeds when no survivor precedes [p] and raises
    otherwise.  [kept] is the list of survivors so far; [None] is the
    raised [ValueError]. *)
Fixpoint update_loop (dt : R) (kept todo : list Particle)
  : option (list Particle) :=
  match todo with
  | [] => Some kept
  | p :: todo' =>
      let p := age dt p in
      if Rleb (p_life p) 0 then
        match kept with
        | [] => update_loop dt kept todo'
        | _ :: _ => None
        end
      else update_loop dt (kept ++ [p]) todo'
  end.

(** [ParticleSystem.update]. *)
Definition particles_update (particles : list Particle) (dt : R)
  : option (list Particle) :=
  update_loop dt [] particles.

Definition vsub (a b : Vec3) : Vec3 :=
  vec (vx a - vx b) (vy a - vy b) (vz a - vz b).

(** Lines 233-238 of [Rocket.update]: the exhaust particles, from the
    fields [s] at that point.  The local [thrust_direction] of line 198 is
    [get_thrust_vector] of these fields too, the angles being last written
    on line 194. *)
Definition exhaust (s : Rocket) (dt : R) (particles : list Particle)
  (draws : nat -> Draw) : option (list Particle) :=
  let thrust_direction := get_thrust_vector s in
  let particles :=
    if Rgtb (thrust s) 0 then
      let exhaust_velocity :=
        vadd (vtimes (vneg thrust_direction) 100) (velocity s) in
      let exhaust_pos := vsub (position s) (vtimes thrust_direction 400) in
      emit particles exhaust_pos exhaust_velocity 4 draws
    else particles in
  particles_update particles dt.

(** The test of line 28, negated: the particle stays in the list. *)
Definition survives (p : Particle) : bool := negb (Rleb (p_life p) 0).

(** Lives do not decrease along the list and none exceeds the initial 1. *)
Fixpoint lives_ordered (particles : list Particle) : Prop :=
  match particles with
  | [] => True
  | p :: rest =>
      p_life p <= 1
      /\ (forall q, In q rest -> p_life p <= p_life q)
      /\ lives_ordered rest
  end.

(** ** The driver's controls (lines 711-715, 755-757, 763-800) *)

Definition set_dry_mass (x : R) (s : Rocket) : Rocket :=
  {| mass := mass s; fuel_mass := fuel_mass s; dry_mass := x;
     velocity := velocity s; position := position s;
     angular_velocity := angular_velocity s; thrust := thrust s;
     max_thrust := max_thrust s; drag_coefficient := drag_coefficient s;
     reference_area := reference_area s;
     engine_temperature := engine_temperature s;
     structural_stress := structural_stress s;
     fuel_consumption_rate := fuel_consumption_rate s; max_q := max_q s;
     trail := trail s; pitch := pitch s; yaw := yaw s; roll := roll s |}.

Definition set_drag_coefficient (x : R) (s : Rocket) : Rocket :=
  {| mass := mass s; fuel_mass := fuel_mass s; dry_mass := dry_mass s;
     velocity := velocity s; position := position s;
     angular_velocity := angular_velocity s; thrust := thrust s;
     max_thrust := max_thrust s; drag_coefficient := x;
     reference_area := reference_area s;
     engine_temperature := engine_temperature s;
     structural_stress := structural_stress s;
     fuel_consumption_rate := fuel_consumption_rate s; max_q := max_q s;
     trail := trail s; pitch := pitch s; yaw := yaw s; roll := roll s |}.

(** The keys read by [pygame.key.get_pressed()]. *)
Record Keys : Type := {
  K_UP : bool; K_DOWN : bool; K_LEFT : bool; K_RIGHT : bool;
  K_1 : bool; K_2 : bool;
  K_w : bool; K_s : bool; K_a : bool; K_d : bool;
  K_q : bool; K_e : bool; K_z : bool; K_x : bool
}.

(** What the key handlers act on: the rocket and the local
    [air_density]. *)
Definition Cockpit : Type := (Rocket * R)%type.

Definition on_rocket (f : Rocket -> Rocket) (c : Cockpit) : Cockpit :=
  (f (fst c), snd c).
Definition on_air (f : R -> R) (c : Cockpit) : Cockpit :=
  (fst c, f (snd c)).

(** [if keys[k]: action]. *)
Definition when (pressed : bool) (action : Cockpit -> Cockpit) (c : Cockpit)
  : Cockpit :=
  if pressed then action c else c.

(** [rotation_speed * (clock.get_time() / 1000.0) * 10]. *)
Definition rotation_speed : R := 30.
Definition turn_rate (clock_time : R) : R :=
  rotation_speed * (clock_time / 1000) * 10.

(** [rocket.angular_velocity[i] += d]. *)
Definition add_angular_velocity (dx dy dz : R) (s : Rocket) : Rocket :=
  set_angular_velocity
    (vec (vx (angular_velocity s) + dx) (vy (angular_velocity s) + dy)
         (vz (angular_velocity s) + dz)) s.

(** Lines 778-783. *)
Definition key_w (s : Rocket) : Rocket :=
  let s := set_dry_mass (py_max 500 (dry_mass s - 20)) s in
  set_mass (dry_mass s + fuel_mass s) s.
Definition key_s (s : Rocket) : Rocket :=
  let s := set_dry_mass (py_min 10000 (dry_mass s + 20)) s in
  set_mass (dry_mass s + fuel_mass s) s.
(** Lines 784-787. *)
Definition key_a (s : Rocket) : Rocket :=
  set_thrust (py_max 0 (thrust s - 1000)) s.
Definition key_d (s : Rocket) : Rocket :=
  set_thrust (py_min (max_thrust s) (thrust s + 1000)) s.
(** Lines 788-791. *)
Definition key_q (air_density : R) : R := py_max 0.01 (air_density - 0.02).
Definition key_e (air_density : R) : R := py_min 5 (air_density + 0.02).
(** Lines 792-795. *)
Definition key_z (s : Rocket) : Rocket :=
  set_drag_coefficient (py_max 0.1 (drag_coefficient s - 0.02)) s.
Definition key_x (s : Rocket) : Rocket :=
  set_drag_coefficient (py_min 2 (drag_coefficient s + 0.02)) s.

(** Lines 763-795, in the order of the source. *)
Definition apply_controls (keys : Keys) (clock_time : R) (c : Cockpit)
  : Cockpit :=
  let r := turn_rate clock_time in
  let c := when (K_UP keys) (on_rocket (add_angular_velocity (- r) 0 0)) c in
  let c := when (K_DOWN keys) (on_rocket (add_angular_velocity r 0 0)) c in
  let c := when (K_LEFT keys) (on_rocket (add_angular_velocity 0 (- r) 0)) c in
  let c := when (K_RIGHT keys) (on_rocket (add_angular_velocity 0 r 0)) c in
  let c := when (K_1 keys) (on_rocket (add_angular_velocity 0 0 (- r))) c in
  let c := when (K_2 keys) (on_rocket (add_angular_velocity 0 0 r)) c in
  let c := when (K_w keys) (on_rocket key_w) c in
  let c := when (K_s keys) (on_rocket key_s) c in
  let c := when (K_a keys) (on_rocket key_a) c in
  let c := when (K_d keys) (on_rocket key_d) c in
  let c := when (K_q keys) (on_air key_q) c in
  let c := when (K_e keys) (on_air key_e) c in
  let c := when (K_z keys) (on_rocket key_z) c in
  when (K_x keys) (on_rocket key_x) c.

(** Lines 711-715: the step of the frame from [clock.tick(60)]. *)
Definition frame_dt (tick_ms : R) (paused : bool) (time_scale : R) : R :=
  let dt := tick_ms / 1000 in
  if negb paused then dt * time_scale else 0.

(** Lines 755 and 757: the time-scale keys. *)
Definition time_scale_up (time_scale : R) : R := py_min (time_scale * 1.5) 5.
Definition time_scale_down (time_scale : R) : R :=
  py_max (time_scale / 1.5) 0.1.


(** The ranges the controls keep. *)
Definition flightworthy (s : Rocket) : Prop :=
  0 <= thrust s <= max_thrust s
  /\ 500 <= dry_mass s <= 10000
  /\ 0 <= fuel_mass s
  /\ mass s = dry_mass s + fuel_mass s
  /\ 0.1 <= drag_coefficient s <= 2.



(** The cockpit as [main] sets it up (lines 691, 700). *)
Definition cockpit_init : Cockpit := (Rocket_init, 1.225).

(** The ranges of the cockpit, for a given [max_thrust]. *)
Definition cockpit_ok (limit : R) (c : Cockpit) : Prop :=
  flightworthy (fst c) /\ max_thrust (fst c) = limit
  /\ 0.01 <= snd c <= 5.

(** ** Display helpers *)

(** [draw_atmosphere], lines 444-451: the blend factor and the sky
    colour passed to [glClearColor]. *)
Definition atmosphere_blend (altitude : R) : R :=
  let altitude := if Rltb altitude 0 then 0 else altitude in
  py_min (altitude / 50000) 1.

Definition sky_color (altitude : R) : Vec3 :=
  let sky_color_low := vec 0.53 0.81 0.92 in
  let sky_color_high := vec 0 0 0.1 in
  let blend := atmosphere_blend altitude in
  vadd (vtimes sky_color_low (1 - blend)) (vtimes sky_color_high blend).

(** [draw_progress_bar], lines 568-573: the fraction shown and the width
    of the filled quad, [None] when nothing is filled. *)
Definition progress_percentage (value max_value : R) : R :=
  if Rgtb max_value 0 then py_min (value / max_value) 1 else 0.

Definition progress_fill (width value max_value : R) : option R :=
  let percentage := progress_percentage value max_value in
  if Rgtb percentage 0 then Some (width * percentage) else None.

(** [draw_rocket], lines 302-305: the hull colour. *)
Definition heat_factor (s : Rocket) : R :=
  py_min (engine_temperature s / 2300) 1.

Definition hull_color (s : Rocket) : Vec3 :=
  let base_color := vec 0.9 0.1 0.1 in
  let hot_color := vec 1 0.4 0 in
  let h := heat_factor s in
  vec (vx base_color * (1 - h) + vx hot_color * h)
      (vy base_color * (1 - h) + vy hot_color * h)
      (vz base_color * (1 - h) + vz hot_color * h).

(** * Properties *)

(** ** Comparisons *)

Lemma Rgtb_true (x y : R) : x > y -> Rgtb x y = true.
Proof. unfold Rgtb; destruct (Rgt_dec x y); [reflexivity | contradiction]. Qed.

Lemma Rgtb_false (x y : R) : x <= y -> Rgtb x y = false.
Proof. unfold Rgtb; destruct (Rgt_dec x y); [lra | reflexivity]. Qed.

Lemma Rltb_true (x y : R) : x < y -> Rltb x y = true.
Proof. unfold Rltb; destruct (Rlt_dec x y); [reflexivity | contradiction]. Qed.

Lemma Rltb_false (x y : R) : y <= x -> Rltb x y = false.
Proof. unfold Rltb; destruct (Rlt_dec x y); [lra | reflexivity]. Qed.

Lemma Rleb_true (x y : R) : x <= y -> Rleb x y = true.
Proof. unfold Rleb; destruct (Rle_dec x y); [reflexivity | contradiction]. Qed.

Lemma Rleb_false (x y : R) : y < x -> Rleb x y = false.
Proof. unfold Rleb; destruct (Rle_dec x y); [lra | reflexivity]. Qed.

(** Case analysis on every comparison in the goal. *)
Ltac cases_cmp :=
  unfold py_max, py_min, Rgtb, Rltb, Rleb in *;
  repeat match goal with
         | |- context [Rgt_dec ?x ?y] => destruct (Rgt_dec x y)
         | |- context [Rlt_dec ?x ?y] => destruct (Rlt_dec x y)
         | |- context [Rle_dec ?x ?y] => destruct (Rle_dec x y)
         | |- context [Req_dec_T ?x ?y] => destruct (Req_dec_T x y)
         end.

Lemma py_max_Rmax (a b : R) : py_max a b = Rmax a b.
Proof. unfold Rmax; cases_cmp; lra. Qed.

Lemma py_min_Rmin (a b : R) : py_min a b = Rmin a b.
Proof. unfold Rmin; cases_cmp; lra. Qed.

Lemma py_max_ge_l (a b : R) : a <= py_max a b.
Proof. cases_cmp; lra. Qed.

Lemma py_max_0_nonneg (x : R) : 0 <= py_max 0 x.
Proof. apply py_max_ge_l. Qed.

(** ** What each phase of [update] leaves alone *)

Lemma burn_fuel_mass (s : Rocket) (dt : R) :
  mass (burn_fuel s dt) = dry_mass (burn_fuel s dt) + fuel_mass (burn_fuel s dt).
Proof.
  unfold burn_fuel.
  destruct (Rgtb (thrust s) 0 && Rgtb (fuel_mass s) 0); cbn.
  - destruct (Rleb _ 0); reflexivity.
  - reflexivity.
Qed.

Lemma burn_fuel_thrust (s : Rocket) (dt : R) :
  thrust (burn_fuel s dt) = thrust s \/ thrust (burn_fuel s dt) = 0.
Proof.
  unfold burn_fuel.
  destruct (Rgtb (thrust s) 0 && Rgtb (fuel_mass s) 0); cbn.
  - destruct (Rleb _ 0); cbn; auto.
  - auto.
Qed.

Lemma burn_fuel_max_thrust (s : Rocket) (dt : R) :
  max_thrust (burn_fuel s dt) = max_thrust s.
Proof.
  unfold burn_fuel.
  destruct (Rgtb (thrust s) 0 && Rgtb (fuel_mass s) 0); cbn;
    [destruct (Rleb _ 0) |]; reflexivity.
Qed.

Lemma burn_fuel_max_q (s : Rocket) (dt : R) :
  max_q (burn_fuel s dt) = max_q s.
Proof.
  unfold burn_fuel.
  destruct (Rgtb (thrust s) 0 && Rgtb (fuel_mass s) 0); cbn;
    [destruct (Rleb _ 0) |]; reflexivity.
Qed.

Lemma burn_fuel_velocity (s : Rocket) (dt : R) :
  velocity (burn_fuel s dt) = velocity s.
Proof.
  unfold burn_fuel.
  destruct (Rgtb (thrust s) 0 && Rgtb (fuel_mass s) 0); cbn;
    [destruct (Rleb _ 0) |]; reflexivity.
Qed.

Lemma burn_fuel_position (s : Rocket) (dt : R) :
  position (burn_fuel s dt) = position s.
Proof.
  unfold burn_fuel.
  destruct (Rgtb (thrust s) 0 && Rgtb (fuel_mass s) 0); cbn;
    [destruct (Rleb _ 0) |]; reflexivity.
Qed.

(** The engine fields of [record_loads], [ground_collision] and of the
    whole call in terms of [burn_fuel]. *)
Ltac through_loads :=
  unfold record_loads;
  match goal with |- context [Rgtb ?a ?b] => destruct (Rgtb a b) end;
  reflexivity.

Lemma record_loads_engine (s : Rocket) (rho g : R) :
  let s' := record_loads s rho g in
  thrust s' = thrust s /\ max_thrust s' = max_thrust s
  /\ mass s' = mass s /\ dry_mass s' = dry_mass s
  /\ fuel_mass s' = fuel_mass s.
Proof. cbv zeta; repeat split; through_loads. Qed.

Lemma record_loads_motion (s : Rocket) (rho g : R) :
  let s' := record_loads s rho g in
  velocity s' = velocity s /\ position s' = position s.
Proof. cbv zeta; repeat split; through_loads. Qed.

Ltac through_collision :=
  unfold ground_collision;
  repeat match goal with
         | |- context [Rltb ?a ?b] => destruct (Rltb a b); cbn
         end;
  reflexivity.

Lemma ground_collision_engine (s : Rocket) :
  let s' := ground_collision s in
  thrust s' = thrust s /\ max_thrust s' = max_thrust s
  /\ mass s' = mass s /\ dry_mass s' = dry_mass s
  /\ fuel_mass s' = fuel_mass s /\ max_q s' = max_q s.
Proof. cbv zeta; repeat split; through_collision. Qed.

Lemma before_temperature_engine (s : Rocket) (dt rho g : R) :
  let s' := before_temperature s dt rho g in
  let b := burn_fuel (set_trail (add_point (trail s) (position s)) s) dt in
  thrust s' = thrust b /\ max_thrust s' = max_thrust s
  /\ mass s' = mass b /\ dry_mass s' = dry_mass b
  /\ fuel_mass s' = fuel_mass b.
Proof.
  cbv zeta. unfold before_temperature, propel.
  set (b := burn_fuel _ dt).
  destruct (record_loads_engine (rotate b dt) rho g) as (Ht & Hm & Hma & Hd & Hf).
  rewrite Ht, Hm, Hma, Hd, Hf. cbn.
  repeat split. unfold b. now rewrite burn_fuel_max_thrust.
Qed.

Lemma before_collision_engine (s : Rocket) (dt rho g : R) :
  let s' := before_collision s dt rho g in
  let b := before_temperature s dt rho g in
  thrust s' = thrust b /\ max_thrust s' = max_thrust b
  /\ mass s' = mass b /\ dry_mass s' = dry_mass b
  /\ fuel_mass s' = fuel_mass b /\ max_q s' = max_q b.
Proof. cbv zeta; repeat split. Qed.

Lemma burn_fuel_set_trail (t : list Vec3) (s : Rocket) (dt : R) :
  burn_fuel (set_trail t s) dt = set_trail t (burn_fuel s dt).
Proof.
  unfold burn_fuel; cbn.
  destruct (Rgtb (thrust s) 0 && Rgtb (fuel_mass s) 0); cbn.
  - destruct (Rleb _ 0); reflexivity.
  - reflexivity.
Qed.

(** For [dt > 0] the engine and mass fields after the call are those
    [burn_fuel] computes, whether or not line 221 raises. *)
Lemma update_engine (s : Rocket) (dt rho g : R) :
  0 < dt ->
  let s' := fst (update s dt rho g) in
  let b := burn_fuel s dt in
  thrust s' = thrust b /\ max_thrust s' = max_thrust s
  /\ mass s' = mass b /\ dry_mass s' = dry_mass b
  /\ fuel_mass s' = fuel_mass b.
Proof.
  intros Hdt. cbv zeta. unfold update.
  rewrite (Rleb_false dt 0 Hdt).
  pose proof (before_temperature_engine s dt rho g) as Hb.
  cbv zeta in Hb. rewrite burn_fuel_set_trail in Hb. cbn in Hb.
  destruct (Req_dec_T _ 0) as [_ | _]; cbn [fst].
  - exact Hb.
  - pose proof (ground_collision_engine (before_collision s dt rho g)) as Hc.
    pose proof (before_collision_engine s dt rho g) as Hp.
    cbv zeta in Hc, Hp.
    destruct Hb as (b1 & b2 & b3 & b4 & b5).
    destruct Hc as (c1 & c2 & c3 & c4 & c5 & _).
    destruct Hp as (p1 & p2 & p3 & p4 & p5 & _).
    rewrite c1, c2, c3, c4, c5, p1, p2, p3, p4, p5.
    repeat split; assumption.
Qed.

Lemma update_noop (s : Rocket) (dt rho g : R) :
  dt <= 0 -> update s dt rho g = (s, Returned (get_telemetry s)).
Proof. intros Hdt. unfold update. now rewrite (Rleb_true dt 0 Hdt). Qed.

(** ** Propulsion: fuel, mass and flameout *)

(** What [burn_fuel] does to the tank. *)
Lemma burn_fuel_fuel_cases (s : Rocket) (dt : R) :
  (thrust s > 0 /\ fuel_mass s > 0
   /\ fuel_mass (burn_fuel s dt)
      = py_max 0 (fuel_mass s - fuel_consumption_rate s * dt))
  \/ ((thrust s <= 0 \/ fuel_mass s <= 0)
      /\ fuel_mass (burn_fuel s dt) = fuel_mass s
      /\ thrust (burn_fuel s dt) = thrust s).
Proof.
  unfold burn_fuel.
  destruct (Rgt_dec (thrust s) 0) as [Ht | Ht];
    destruct (Rgt_dec (fuel_mass s) 0) as [Hf | Hf].
  - left. rewrite (Rgtb_true _ _ Ht), (Rgtb_true _ _ Hf). cbn.
    repeat split; try assumption. destruct (Rleb _ 0); reflexivity.
  - right. rewrite (Rgtb_true _ _ Ht), (Rgtb_false (fuel_mass s) 0) by lra.
    cbn. repeat split. right; lra.
  - right. rewrite (Rgtb_false (thrust s) 0) by lra.
    cbn. repeat split. left; lra.
  - right. rewrite (Rgtb_false (thrust s) 0) by lra.
    cbn. repeat split. left; lra.
Qed.

(** When the burn itself empties the tank, the engine is cut. *)
Lemma burn_fuel_flameout (s : Rocket) (dt : R) :
  thrust s > 0 -> fuel_mass s > 0 ->
  fuel_mass (burn_fuel s dt) <= 0 -> thrust (burn_fuel s dt) = 0.
Proof.
  intros Ht Hf. unfold burn_fuel.
  rewrite (Rgtb_true _ _ Ht), (Rgtb_true _ _ Hf). cbn.
  unfold Rleb. destruct (Rle_dec _ 0) as [Hle | Hgt]; cbn; [reflexivity | lra].
Qed.

(** The part of the flameout rule the call does enforce: a burn that
    empties the tank cuts the engine, and a cut engine stays cut. *)
Lemma update_flameout_during_burn (s : Rocket) (dt rho g : R) :
  0 < dt -> thrust s > 0 -> fuel_mass s > 0 ->
  fuel_mass (fst (update s dt rho g)) = 0 ->
  thrust (fst (update s dt rho g)) = 0.
Proof.
  intros Hdt Ht Hf.
  destruct (update_engine s dt rho g Hdt) as (-> & _ & _ & _ & ->).
  intros Hz. apply burn_fuel_flameout; lra.
Qed.

Lemma update_thrust_stays_zero (s : Rocket) (dt rho g : R) :
  thrust s = 0 -> thrust (fst (update s dt rho g)) = 0.
Proof.
  intros Ht.
  destruct (Rle_dec dt 0) as [Hle | Hgt].
  - now rewrite (update_noop s dt rho g Hle).
  - destruct (update_engine s dt rho g ltac:(lra)) as (-> & _).
    destruct (burn_fuel_thrust s dt) as [-> | ->]; [exact Ht | reflexivity].
Qed.

(** C1 (flameout forced whenever [fuel_mass == 0] in the post-state): the
    code misses the case of an empty tank on entry.  From [spent_throttled],
    one call with [dt = 1], [air_density = 1.225], [gravity = 9.81] returns
    with [fuel_mass = 0] and [thrust = 1000]: the zeroing of line 184 sits
    inside the burn branch, which an empty tank does not enter. *)
Theorem flameout_missed_on_empty_entry :
  let s' := fst (update spent_throttled 1 1.225 9.81) in
  fuel_mass s' = 0 /\ thrust s' = 1000.
Proof.
  cbv zeta.
  destruct (update_engine spent_throttled 1 1.225 9.81 ltac:(lra))
    as (Ht & _ & _ & _ & Hf).
  rewrite Ht, Hf. unfold burn_fuel, spent_throttled; cbn.
  rewrite (Rgtb_true 1000 0) by lra.
  rewrite (Rgtb_false 0 0) by lra. cbn. split; reflexivity.
Qed.

(** C2, as stated: the post-state has [mass == dry_mass + fuel_mass] and
    [fuel_mass >= 0] whatever the entry values.  It fails for a negative
    [fuel_mass] on entry, which no branch clamps. *)
Lemma mass_fuel_invariant_fails_on_negative_fuel :
  ~ (forall (s : Rocket) (dt rho g : R), 0 < dt ->
       let s' := fst (update s dt rho g) in
       mass s' = dry_mass s' + fuel_mass s' /\ fuel_mass s' >= 0).
Proof.
  intros H.
  specialize (H (set_fuel_mass (-1) Rocket_init) 1 1.225 9.81 ltac:(lra)).
  cbv zeta in H. destruct H as [_ H].
  destruct (update_engine (set_fuel_mass (-1) Rocket_init) 1 1.225 9.81
              ltac:(lra)) as (_ & _ & _ & _ & Hf).
  rewrite Hf in H. unfold burn_fuel in H; cbn in H.
  rewrite (Rgtb_false (-1) 0) in H by lra.
  rewrite andb_false_r in H. cbn in H. lra.
Qed.

(** C2, amended: for [dt > 0] and any entry values the post-state has
    [mass == dry_mass + fuel_mass]; its [fuel_mass] is non-negative exactly
    when the entry [fuel_mass] is. *)
Theorem mass_fuel_invariant (s : Rocket) (dt rho g : R) :
  0 < dt ->
  let s' := fst (update s dt rho g) in
  mass s' = dry_mass s' + fuel_mass s'
  /\ (0 <= fuel_mass s' <-> 0 <= fuel_mass s).
Proof.
  intros Hdt. cbv zeta.
  destruct (update_engine s dt rho g Hdt) as (_ & _ & Hm & Hd & Hf).
  rewrite Hm, Hd, Hf. split; [apply burn_fuel_mass |].
  destruct (burn_fuel_fuel_cases s dt) as [(_ & Hpos & ->) | (_ & -> & _)].
  - pose proof (py_max_0_nonneg (fuel_mass s - fuel_consumption_rate s * dt)).
    split; intros; lra.
  - tauto.
Qed.

(** The default rocket, one tick of [dt = 1] at sea-level density. *)
Lemma mass_fuel_invariant_witness :
  let s' := fst (update Rocket_init 1 1.225 9.81) in
  mass s' = dry_mass s' + fuel_mass s'
  /\ (0 <= fuel_mass s' <-> 0 <= fuel_mass Rocket_init).
Proof. apply mass_fuel_invariant; lra. Defined.

(** C10: a call never raises the throttle.  For every state and arguments
    the [thrust] after the call is its entry value or 0, [max_thrust] is
    untouched, and so [0 <= thrust <= max_thrust] is kept. *)
Theorem thrust_never_increases (s : Rocket) (dt rho g : R) :
  let s' := fst (update s dt rho g) in
  (thrust s' = thrust s \/ thrust s' = 0)
  /\ max_thrust s' = max_thrust s
  /\ (0 <= thrust s <= max_thrust s -> 0 <= thrust s' <= max_thrust s').
Proof.
  cbv zeta.
  assert (H : (thrust (fst (update s dt rho g)) = thrust s
               \/ thrust (fst (update s dt rho g)) = 0)
              /\ max_thrust (fst (update s dt rho g)) = max_thrust s).
  { destruct (Rle_dec dt 0) as [Hle | Hgt].
    - rewrite (update_noop s dt rho g Hle). cbn. auto.
    - destruct (update_engine s dt rho g ltac:(lra)) as (Ht & Hm & _).
      rewrite Ht, Hm. split; [apply burn_fuel_thrust | reflexivity]. }
  destruct H as [Ht Hm]. repeat split; try assumption;
    rewrite ?Hm; destruct Ht as [-> | ->]; lra.
Qed.

(** The default rocket starts within [0, max_thrust] and stays there. *)
Lemma thrust_never_increases_witness :
  let s' := fst (update Rocket_init 1 1.225 9.81) in
  (thrust s' = thrust Rocket_init \/ thrust s' = 0)
  /\ max_thrust s' = max_thrust Rocket_init
  /\ 0 <= thrust s' <= max_thrust s'.
Proof.
  pose proof (thrust_never_increases Rocket_init 1 1.225 9.81) as H.
  cbv zeta in *. destruct H as (H1 & H2 & H3).
  repeat split; try assumption; apply H3; cbn; lra.
Defined.

(** ** When the call returns *)

(** [update] raises exactly when [dt > 0] and [max_thrust] is zero. *)
Lemma update_returns (s : Rocket) (dt rho g : R) :
  dt <= 0 \/ max_thrust s <> 0 ->
  snd (update s dt rho g)
  = Returned (get_telemetry (fst (update s dt rho g))).
Proof.
  intros H. unfold update, Rleb.
  destruct (Rle_dec dt 0) as [Hle | Hgt]; [reflexivity |].
  destruct H as [H | H]; [contradiction |].
  destruct (Req_dec_T _ 0) as [Hz | Hnz]; [| reflexivity].
  destruct (before_temperature_engine s dt rho g) as (_ & Hm & _).
  congruence.
Qed.

Lemma update_raises (s : Rocket) (dt rho g : R) :
  0 < dt -> max_thrust s = 0 ->
  snd (update s dt rho g) = Raised ZeroDivisionError.
Proof.
  intros Hdt Hz. unfold update. rewrite (Rleb_false dt 0 Hdt).
  destruct (Req_dec_T _ 0) as [_ | Hnz]; [reflexivity |].
  destruct (before_temperature_engine s dt rho g) as (_ & Hm & _).
  congruence.
Qed.

Lemma update_post_state (s : Rocket) (dt rho g : R) :
  0 < dt -> max_thrust s <> 0 ->
  fst (update s dt rho g) = ground_collision (before_collision s dt rho g).
Proof.
  intros Hdt Hnz. unfold update. rewrite (Rleb_false dt 0 Hdt).
  destruct (Req_dec_T _ 0) as [Hz | _]; [| reflexivity].
  destruct (before_temperature_engine s dt rho g) as (_ & Hm & _).
  congruence.
Qed.

(** C3: for [dt <= 0] the call changes no field (the trail included) and
    returns the telemetry of the state as it stands, the value of a bare
    [get_telemetry]. *)
Theorem degenerate_dt_is_noop (s : Rocket) (dt rho g : R) :
  dt <= 0 ->
  fst (update s dt rho g) = s
  /\ snd (update s dt rho g) = Returned (get_telemetry s).
Proof. intros Hdt. rewrite (update_noop s dt rho g Hdt). split; reflexivity. Qed.

(** A negative step on the default rocket. *)
Lemma degenerate_dt_is_noop_witness :
  fst (update Rocket_init (-1) 1.225 9.81) = Rocket_init
  /\ snd (update Rocket_init (-1) 1.225 9.81)
     = Returned (get_telemetry Rocket_init).
Proof. apply degenerate_dt_is_noop; lra. Defined.

(** ** The [max_q] watermark *)

Lemma propel_max_q (s : Rocket) (dt : R) : max_q (propel s dt) = max_q s.
Proof. unfold propel, rotate; cbn. now rewrite burn_fuel_max_q. Qed.

Lemma record_loads_max_q (s : Rocket) (rho g : R) :
  max_q (record_loads s rho g)
  = py_max (max_q s) (calculate_dynamic_pressure s rho).
Proof. through_loads. Qed.

Lemma update_max_q_le (s : Rocket) (dt rho g : R) :
  max_q s <= max_q (fst (update s dt rho g)).
Proof.
  unfold update, Rleb.
  destruct (Rle_dec dt 0) as [Hle | Hgt]; cbn [fst]; [lra |].
  assert (Hb : max_q s <= max_q (before_temperature s dt rho g)).
  { unfold before_temperature.
    rewrite record_loads_max_q, propel_max_q. apply py_max_ge_l. }
  destruct (Req_dec_T _ 0) as [_ | _]; cbn [fst]; [exact Hb |].
  destruct (ground_collision_engine (before_collision s dt rho g))
    as (_ & _ & _ & _ & _ & ->).
  destruct (before_collision_engine s dt rho g) as (_ & _ & _ & _ & _ & ->).
  exact Hb.
Qed.

(** C7: [max_q] after a call is at least [max_q] before it, for every
    [dt], [air_density] and [gravity], and so along any sequence of ticks;
    a newly constructed rocket starts at 0. *)
Theorem max_q_monotone :
  (forall (s : Rocket) (dt rho g : R),
      max_q s <= max_q (fst (update s dt rho g)))
  /\ (forall (ticks : list Tick) (s : Rocket),
         max_q s <= max_q (fst (run ticks s)))
  /\ max_q Rocket_init = 0.
Proof.
  split; [exact update_max_q_le | split; [| reflexivity]].
  induction ticks as [| t ticks IH]; intros s; cbn [run fst].
  - lra.
  - pose proof (update_max_q_le s (tick_dt t) (tick_air_density t)
                  (tick_gravity t)) as Hstep.
    destruct (update s (tick_dt t) (tick_air_density t) (tick_gravity t))
      as [s' [tel | e]]; cbn [fst] in *.
    + specialize (IH s'). lra.
    + exact Hstep.
Qed.

(** ** Telemetry *)

Lemma norm_nonneg (a : Vec3) : 0 <= norm a.
Proof. apply sqrt_pos. Qed.

Lemma norm_sq (a : Vec3) : norm a ^ 2 = dot a a.
Proof.
  unfold norm, dot. rewrite <- Rsqr_pow2, Rsqr_sqrt; [ring |].
  pose proof (pow2_ge_0 (vx a)); pose proof (pow2_ge_0 (vy a));
    pose proof (pow2_ge_0 (vz a)); lra.
Qed.

(** A returned snapshot is [get_telemetry] of the post-state. *)
Lemma returned_telemetry (s : Rocket) (dt rho g : R) (tel : Telemetry) :
  snd (update s dt rho g) = Returned tel ->
  tel = get_telemetry (fst (update s dt rho g)).
Proof.
  intros Hret.
  destruct (Rle_dec dt 0) as [Hle | Hgt].
  - rewrite (update_returns s dt rho g (or_introl Hle)) in Hret. congruence.
  - destruct (Req_dec_T (max_thrust s) 0) as [Hz | Hnz].
    + rewrite (update_raises s dt rho g) in Hret by lra. discriminate.
    + rewrite (update_returns s dt rho g (or_intror Hnz)) in Hret.
      congruence.
Qed.

(** C4: whenever the call returns, the [drag], [lift] and
    [dynamic_pressure] entries of the snapshot are the aerodynamic model
    on the post-state at density 1.225; [dynamic_pressure] is
    [0.5 * 1.225 * |velocity|^2]; and two calls that leave the same
    post-state report the same three entries whatever [air_density] they
    were given. *)
Theorem telemetry_reference_density (s : Rocket) (dt rho g : R) :
  dt <= 0 \/ max_thrust s <> 0 ->
  let s' := fst (update s dt rho g) in
  exists tel : Telemetry,
    snd (update s dt rho g) = Returned tel
    /\ t_drag tel = norm (calculate_drag s' 1.225)
    /\ t_lift tel = norm (calculate_lift s' 1.225)
    /\ t_dynamic_pressure tel = calculate_dynamic_pressure s' 1.225
    /\ t_dynamic_pressure tel
       = 0.5 * 1.225 * dot (velocity s') (velocity s')
    /\ forall (s2 : Rocket) (dt2 rho2 g2 : R) (tel2 : Telemetry),
        snd (update s2 dt2 rho2 g2) = Returned tel2 ->
        fst (update s2 dt2 rho2 g2) = s' ->
        t_drag tel2 = t_drag tel /\ t_lift tel2 = t_lift tel
        /\ t_dynamic_pressure tel2 = t_dynamic_pressure tel.
Proof.
  intros H. cbv zeta.
  exists (get_telemetry (fst (update s dt rho g))).
  split; [apply update_returns; exact H |].
  repeat split; try reflexivity.
  - change (t_dynamic_pressure (get_telemetry (fst (update s dt rho g))))
      with (0.5 * 1.225 * norm (velocity (fst (update s dt rho g))) ^ 2).
    now rewrite norm_sq.
  - rewrite (returned_telemetry _ _ _ _ _ H0), H1. reflexivity.
  - rewrite (returned_telemetry _ _ _ _ _ H0), H1. reflexivity.
  - rewrite (returned_telemetry _ _ _ _ _ H0), H1. reflexivity.
Qed.

(** The default rocket stepped at [air_density = 0.5]: the call returns and
    its snapshot is computed at 1.225. *)
Lemma telemetry_reference_density_witness :
  let s' := fst (update Rocket_init 1 0.5 9.81) in
  exists tel : Telemetry,
    snd (update Rocket_init 1 0.5 9.81) = Returned tel
    /\ t_drag tel = norm (calculate_drag s' 1.225)
    /\ t_lift tel = norm (calculate_lift s' 1.225)
    /\ t_dynamic_pressure tel = calculate_dynamic_pressure s' 1.225
    /\ t_dynamic_pressure tel
       = 0.5 * 1.225 * dot (velocity s') (velocity s')
    /\ forall (s2 : Rocket) (dt2 rho2 g2 : R) (tel2 : Telemetry),
        snd (update s2 dt2 rho2 g2) = Returned tel2 ->
        fst (update s2 dt2 rho2 g2) = s' ->
        t_drag tel2 = t_drag tel /\ t_lift tel2 = t_lift tel
        /\ t_dynamic_pressure tel2 = t_dynamic_pressure tel.
Proof.
  apply (telemetry_reference_density Rocket_init 1 0.5 9.81).
  right. cbn. lra.
Defined.

(** ** Integration and the ground *)

Lemma propel_motion (s : Rocket) (dt : R) :
  velocity (propel s dt) = velocity s /\ position (propel s dt) = position s.
Proof.
  unfold propel, rotate; cbn.
  now rewrite burn_fuel_velocity, burn_fuel_position.
Qed.

(** The state at the ground test is the semi-implicit Euler step of the
    entry velocity and position. *)
Lemma before_collision_euler (s : Rocket) (dt rho g : R) :
  let b := before_collision s dt rho g in
  velocity b
  = vadd (velocity s) (vtimes (acceleration (propel s dt) rho g) dt)
  /\ position b = vadd (position s) (vtimes (velocity b) dt).
Proof.
  cbv zeta. unfold before_collision, euler. cbn.
  destruct (record_loads_motion (propel s dt) rho g) as [-> ->].
  destruct (propel_motion s dt) as [-> ->].
  split; reflexivity.
Qed.

Lemma ground_collision_airborne (s : Rocket) :
  0 <= vy (position s) -> ground_collision s = s.
Proof. intros H. unfold ground_collision. now rewrite Rltb_false. Qed.

Lemma ground_collision_bounce (s : Rocket) :
  vy (position s) < 0 -> vy (velocity s) < 0 ->
  position (ground_collision s) = vec (vx (position s)) 0 (vz (position s))
  /\ velocity (ground_collision s)
     = vec (vx (velocity s) * 0.7) (- vy (velocity s) * 0.3)
           (vz (velocity s) * 0.7).
Proof.
  intros Hp Hv. unfold ground_collision.
  rewrite (Rltb_true _ _ Hp). cbn. rewrite (Rltb_true _ _ Hv). cbn.
  split; reflexivity.
Qed.

Lemma ground_collision_rest (s : Rocket) :
  vy (position s) < 0 -> 0 <= vy (velocity s) ->
  position (ground_collision s) = vec (vx (position s)) 0 (vz (position s))
  /\ velocity (ground_collision s) = velocity s.
Proof.
  intros Hp Hv. unfold ground_collision.
  rewrite (Rltb_true _ _ Hp). cbn. rewrite (Rltb_false _ _ Hv).
  split; reflexivity.
Qed.

(** C8: in a call with [dt > 0] that reaches the ground test, let [b] be
    the state after the semi-implicit Euler update.  If [position.y < 0] and
    [velocity.y < 0] in [b], the post-state has [position.y = 0],
    [velocity.y = -0.3 * velocity.y] of [b] and [velocity.x], [velocity.z]
    scaled by 0.7; if [position.y < 0] and [velocity.y >= 0], only
    [position.y] is set to 0 and the velocity is that of [b]. *)
Theorem ground_bounce (s : Rocket) (dt rho g : R) :
  0 < dt -> max_thrust s <> 0 ->
  let b := before_collision s dt rho g in
  let s' := fst (update s dt rho g) in
  (velocity b
   = vadd (velocity s) (vtimes (acceleration (propel s dt) rho g) dt)
   /\ position b = vadd (position s) (vtimes (velocity b) dt))
  /\ (vy (position b) < 0 -> vy (velocity b) < 0 ->
      vy (position s') = 0
      /\ vy (velocity s') = -0.3 * vy (velocity b)
      /\ vx (velocity s') = 0.7 * vx (velocity b)
      /\ vz (velocity s') = 0.7 * vz (velocity b)
      /\ vx (position s') = vx (position b)
      /\ vz (position s') = vz (position b))
  /\ (vy (position b) < 0 -> 0 <= vy (velocity b) ->
      vy (position s') = 0
      /\ velocity s' = velocity b
      /\ vx (position s') = vx (position b)
      /\ vz (position s') = vz (position b)).
Proof.
  intros Hdt Hnz. cbv zeta.
  rewrite (update_post_state s dt rho g Hdt Hnz).
  split; [apply before_collision_euler |].
  split; intros Hp Hv.
  - destruct (ground_collision_bounce _ Hp Hv) as [-> ->]. cbn.
    repeat split; lra.
  - destruct (ground_collision_rest _ Hp Hv) as [-> ->]. cbn.
    repeat split.
Qed.

(** ** Special cases of the force model *)

Lemma norm_vzero : norm (vec 0 0 0) = 0.
Proof.
  unfold norm; cbn [vx vy vz].
  replace (0 ^ 2 + 0 ^ 2 + 0 ^ 2) with 0 by ring. apply sqrt_0.
Qed.

(** With [air_density = 0] there is neither drag nor lift. *)
Lemma calculate_drag_vacuum (s : Rocket) : calculate_drag s 0 = vec 0 0 0.
Proof.
  unfold calculate_drag. destruct (Rgtb _ 0.1); [| reflexivity].
  unfold vscale, vdiv, vneg; cbn [vx vy vz]. f_equal; ring.
Qed.

Lemma calculate_lift_vacuum (s : Rocket) : calculate_lift s 0 = vec 0 0 0.
Proof.
  unfold calculate_lift.
  destruct (Rgtb _ 1); [| reflexivity].
  destruct (Rgtb _ 0.01); [| reflexivity].
  destruct (Rgtb _ 0); [| reflexivity].
  unfold vscale. f_equal; ring.
Qed.

(** At rest there is neither drag nor lift, whatever the density. *)
Lemma calculate_drag_rest (s : Rocket) (rho : R) :
  velocity s = vec 0 0 0 -> calculate_drag s rho = vec 0 0 0.
Proof.
  intros Hv. unfold calculate_drag. rewrite Hv, norm_vzero.
  now rewrite Rgtb_false by lra.
Qed.

Lemma calculate_lift_rest (s : Rocket) (rho : R) :
  velocity s = vec 0 0 0 -> calculate_lift s rho = vec 0 0 0.
Proof.
  intros Hv. unfold calculate_lift. rewrite Hv, norm_vzero.
  now rewrite Rgtb_false by lra.
Qed.

(** Neutral orientation points the thrust axis straight up. *)
Lemma get_thrust_vector_neutral (s : Rocket) :
  pitch s = 0 -> yaw s = 0 -> roll s = 0 -> get_thrust_vector s = vec 0 1 0.
Proof.
  intros Hp Hy Hr.
  unfold get_thrust_vector, get_rotation_matrix, radians.
  rewrite Hp, Hy, Hr, Rmult_0_l, cos_0, sin_0.
  unfold matvec, matmul, vecmat, col0, col1, col2, dot; cbn [vx vy vz row0 row1 row2].
  f_equal; ring.
Qed.

Lemma Int_part_0 : Int_part 0 = 0%Z.
Proof.
  unfold Int_part. rewrite <- (tech_up 0 1); [reflexivity | |]; simpl; lra.
Qed.

Lemma py_mod_0 (m : R) : py_mod 0 m = 0.
Proof.
  unfold py_mod. replace (0 / m) with 0 by (unfold Rdiv; ring).
  rewrite Int_part_0. simpl. ring.
Qed.

(** With the throttle closed [burn_fuel] only recomputes the mass. *)
Lemma burn_fuel_idle (s : Rocket) (dt : R) :
  thrust s <= 0 -> burn_fuel s dt = set_mass (dry_mass s + fuel_mass s) s.
Proof.
  intros Ht. unfold burn_fuel. now rewrite (Rgtb_false _ _ Ht).
Qed.

(** A burn that does not empty the tank. *)
Lemma burn_fuel_burning (s : Rocket) (dt : R) :
  thrust s > 0 -> fuel_mass s - fuel_consumption_rate s * dt > 0 ->
  fuel_mass s > 0 ->
  burn_fuel s dt
  = set_mass (dry_mass s + (fuel_mass s - fuel_consumption_rate s * dt))
      (set_fuel_mass (fuel_mass s - fuel_consumption_rate s * dt) s).
Proof.
  intros Ht Hleft Hf. unfold burn_fuel.
  rewrite (Rgtb_true _ _ Ht), (Rgtb_true _ _ Hf). cbn.
  unfold py_max. rewrite (Rgtb_true _ _ Hleft).
  now rewrite Rleb_false by lra.
Qed.

(** ** Free fall: throttle closed, no air *)

(** With no mass to accelerate the guard of line 207 yields no
    acceleration at all. *)
Lemma massless_acceleration (s : Rocket) (dt rho g : R) :
  thrust s <= 0 -> dry_mass s + fuel_mass s <= 0 ->
  acceleration (propel s dt) rho g = vec 0 0 0.
Proof.
  intros Ht Hm. unfold acceleration, propel.
  rewrite burn_fuel_idle by (cbn; lra).
  cbn [rotate mass set_mass set_trail set_pitch set_yaw set_roll
       set_angular_velocity dry_mass fuel_mass].
  now rewrite (Rgtb_false _ _ Hm).
Qed.

(** The fields a closed-throttle tick depends on are the same after it. *)
Lemma idle_tick_frame (s : Rocket) (dt rho g : R) :
  0 < dt -> thrust s = 0 ->
  let s' := fst (update s dt rho g) in
  thrust s' = 0 /\ max_thrust s' = max_thrust s
  /\ dry_mass s' = dry_mass s /\ fuel_mass s' = fuel_mass s.
Proof.
  intros Hdt Ht. cbv zeta.
  destruct (update_engine s dt rho g Hdt) as (-> & -> & _ & -> & ->).
  rewrite burn_fuel_idle by lra. cbn. auto.
Qed.

Lemma run_cons_returned (t : Tick) (ticks : list Tick) (s : Rocket) :
  tick_dt t <= 0 \/ max_thrust s <> 0 ->
  run (t :: ticks) s
  = run ticks
      (fst (update s (tick_dt t) (tick_air_density t) (tick_gravity t))).
Proof.
  intros H. cbn [run].
  pose proof (update_returns s _ (tick_air_density t) (tick_gravity t) H)
    as Hret.
  destruct (update s (tick_dt t) (tick_air_density t) (tick_gravity t))
    as [s' o]. cbn [fst snd] in *. now rewrite Hret.
Qed.

Section FreeFall.

(** A fixed step and gravity; the air density is 0 throughout. *)
Variables dt g : R.
Hypothesis dt_pos : 0 < dt.

Lemma free_fall_acceleration (s : Rocket) :
  thrust s = 0 -> 0 < dry_mass s + fuel_mass s ->
  acceleration (propel s dt) 0 g = vec 0 (- g) 0.
Proof.
  intros Ht Hm. unfold acceleration, total_force.
  rewrite calculate_drag_vacuum, calculate_lift_vacuum.
  unfold propel. rewrite burn_fuel_idle by (cbn; lra).
  cbn [rotate mass thrust set_mass set_trail set_pitch set_yaw set_roll
       set_angular_velocity dry_mass fuel_mass].
  rewrite Ht, (Rgtb_true _ _ Hm).
  unfold vadd, vscale, vdiv; cbn [vx vy vz]. f_equal; field; lra.
Qed.

(** The state at the ground test of a free-fall tick. *)
Lemma free_fall_before_collision (s : Rocket) :
  thrust s = 0 -> 0 < dry_mass s + fuel_mass s ->
  let b := before_collision s dt 0 g in
  velocity b
  = vec (vx (velocity s)) (vy (velocity s) - g * dt) (vz (velocity s))
  /\ position b
     = vec (vx (position s) + vx (velocity s) * dt)
           (vy (position s) + (vy (velocity s) - g * dt) * dt)
           (vz (position s) + vz (velocity s) * dt).
Proof.
  intros Ht Hm. cbv zeta.
  destruct (before_collision_euler s dt 0 g) as [Hv Hp].
  rewrite (free_fall_acceleration s Ht Hm) in Hv.
  assert (Hv' : velocity (before_collision s dt 0 g)
                = vec (vx (velocity s)) (vy (velocity s) - g * dt)
                      (vz (velocity s))).
  { rewrite Hv. unfold vadd, vtimes; cbn [vx vy vz]. f_equal; ring. }
  split; [exact Hv' |].
  rewrite Hp, Hv'. unfold vadd, vtimes; cbn [vx vy vz]. reflexivity.
Qed.

Lemma falling_preserved (s : Rocket) :
  falling s -> falling (fst (update s dt 0 g)).
Proof.
  intros (Ht & Hm & Hnz).
  destruct (idle_tick_frame s dt 0 g dt_pos Ht) as (Ht' & Hx' & Hd' & Hf').
  unfold falling. rewrite Ht', Hx', Hd', Hf'. auto.
Qed.

Lemma free_fall_tick (s : Rocket) :
  falling s ->
  0 <= vy (position (before_collision s dt 0 g)) ->
  vy (velocity (fst (update s dt 0 g))) = vy (velocity s) - g * dt.
Proof.
  intros (Ht & Hm & Hnz) Hair.
  rewrite (update_post_state s dt 0 g dt_pos Hnz).
  rewrite (ground_collision_airborne _ Hair).
  destruct (free_fall_before_collision s Ht Hm) as [-> _].
  reflexivity.
Qed.

End FreeFall.

(** C6, as stated (no condition on the mass): it fails for a rocket with
    [dry_mass + fuel_mass = 0], whose acceleration line 210 sets to zero.
    One tick of [dt = 1] under [gravity = 9.81] leaves [velocity.y] of
    [massless] at 0, 500 above the ground. *)
Lemma free_fall_fails_without_mass :
  ~ (forall (n : nat) (s : Rocket) (dt g : R),
        0 < dt -> thrust s = 0 -> airborne n s dt 0 g ->
        vy (velocity (fst (run (constant_ticks n dt 0 g) s)))
        = vy (velocity s) - g * INR n * dt).
Proof.
  intros H.
  set (s := massless).
  assert (Hnz : max_thrust s <> 0) by (cbn; lra).
  assert (Hb : velocity (before_collision s 1 0 9.81) = vec 0 0 0
               /\ position (before_collision s 1 0 9.81) = vec 0 500 0).
  { destruct (before_collision_euler s 1 0 9.81) as [Hv Hp].
    rewrite massless_acceleration in Hv by (cbn; lra).
    rewrite Hp, Hv.
    unfold vadd, vtimes; cbn [vx vy vz velocity position s massless].
    split; f_equal; ring. }
  destruct Hb as [Hv Hp].
  specialize (H 1%nat s 1 9.81 ltac:(lra) eq_refl).
  assert (Hair : airborne 1 s 1 0 9.81).
  { cbn [airborne]. rewrite Hp. cbn. split; [lra | exact I]. }
  specialize (H Hair).
  unfold constant_ticks in H. cbn [repeat] in H.
  rewrite run_cons_returned in H by (right; exact Hnz).
  cbn [run fst tick_dt tick_air_density tick_gravity] in H.
  rewrite (update_post_state s 1 0 9.81 ltac:(lra) Hnz) in H.
  rewrite ground_collision_airborne in H by (rewrite Hp; cbn; lra).
  rewrite Hv in H. cbn in H. lra.
Qed.

(** C6, amended: throttle closed, [air_density = 0], a positive
    [dry_mass + fuel_mass] and a non-zero [max_thrust].  For every [n] and
    [dt > 0], if none of the next [n] ticks touches the ground, all of
    them return and [velocity.y] has decreased by exactly
    [gravity * n * dt]. *)
Theorem free_fall_velocity (n : nat) (s : Rocket) (dt g : R) :
  0 < dt -> thrust s = 0 -> 0 < dry_mass s + fuel_mass s ->
  max_thrust s <> 0 ->
  airborne n s dt 0 g ->
  snd (run (constant_ticks n dt 0 g) s) = None
  /\ vy (velocity (fst (run (constant_ticks n dt 0 g) s)))
     = vy (velocity s) - g * INR n * dt.
Proof.
  intros Hdt Ht Hm Hnz.
  assert (Hfall : falling s) by (repeat split; assumption).
  clear Ht Hm Hnz. revert s Hfall.
  induction n as [| n IH]; intros s Hfall Hair.
  - cbn. split; [reflexivity | ring].
  - destruct Hair as [Hnow Hlater].
    unfold constant_ticks in *. cbn [repeat].
    rewrite run_cons_returned by (right; apply Hfall).
    cbn [tick_dt tick_air_density tick_gravity].
    destruct (IH _ (falling_preserved dt g Hdt s Hfall) Hlater)
      as [Hret Hvel].
    split; [exact Hret |].
    rewrite Hvel, (free_fall_tick dt g Hdt s Hfall Hnow), S_INR. ring.
Qed.

(** Scenario A: the default rocket with the throttle closed, one tick of
    [dt = 1] with [air_density = 0] and [gravity = 9.81], ends with
    [velocity.y = -9.81]. *)
Lemma free_fall_scenario_A :
  snd (run (constant_ticks 1 1 0 9.81) (set_thrust 0 Rocket_init)) = None
  /\ vy (velocity (fst (run (constant_ticks 1 1 0 9.81)
                          (set_thrust 0 Rocket_init))))
     = -9.81.
Proof.
  destruct (free_fall_velocity 1 (set_thrust 0 Rocket_init) 1 9.81)
    as [Hret Hvel].
  - lra.
  - reflexivity.
  - cbn. lra.
  - cbn. lra.
  - cbn [airborne]. split; [| exact I].
    destruct (free_fall_before_collision 1 9.81 (set_thrust 0 Rocket_init))
      as [_ ->]; [reflexivity | cbn; lra |].
    cbn. lra.
  - split; [exact Hret |]. rewrite Hvel. cbn. lra.
Defined.

(** A closed-throttle rocket standing on the ground: one tick of [dt = 1]
    in vacuum under [gravity = 9.81] takes it to [position.y = -9.81] with
    [velocity.y = -9.81] before the ground test, and it leaves the call at
    [position.y = 0] with [velocity.y = 2.943]. *)
Lemma ground_bounce_witness :
  let s := set_position (vec 0 0 0) (set_thrust 0 Rocket_init) in
  let b := before_collision s 1 0 9.81 in
  let s' := fst (update s 1 0 9.81) in
  vy (position b) = -9.81 /\ vy (velocity b) = -9.81
  /\ vy (position s') = 0 /\ vy (velocity s') = 2.943
  /\ vx (velocity s') = 0 /\ vz (velocity s') = 0.
Proof.
  cbv zeta.
  set (s := set_position (vec 0 0 0) (set_thrust 0 Rocket_init)).
  destruct (free_fall_before_collision 1 9.81 s) as [Hv Hp];
    [reflexivity | cbn; lra |].
  assert (Hpy : vy (position (before_collision s 1 0 9.81)) = -9.81)
    by (rewrite Hp; cbn; lra).
  assert (Hvy : vy (velocity (before_collision s 1 0 9.81)) = -9.81)
    by (rewrite Hv; cbn; lra).
  destruct (ground_bounce s 1 0 9.81) as (_ & Hbounce & _);
    [lra | cbn; lra |].
  destruct Hbounce as (H1 & H2 & H3 & H4 & _); [lra | lra |].
  rewrite Hv in H3, H4. cbn in H3, H4.
  repeat split; try assumption; lra.
Defined.

(** ** A burn at rest in neutral orientation *)

Lemma ground_collision_rising (s : Rocket) :
  0 <= vy (velocity s) -> velocity (ground_collision s) = velocity s.
Proof.
  intros Hv. unfold ground_collision.
  destruct (Rltb (vy (position s)) 0); [| reflexivity].
  cbn. now rewrite (Rltb_false _ _ Hv).
Qed.

(** The fuel of the tick is burnt before the forces are composed: the
    acceleration divides by the mass that is left. *)
Lemma neutral_burn_acceleration (s : Rocket) (dt rho g : R) :
  thrust s > 0 -> 0 < fuel_mass s ->
  fuel_consumption_rate s * dt < fuel_mass s ->
  0 < dry_mass s + (fuel_mass s - fuel_consumption_rate s * dt) ->
  pitch s = 0 -> yaw s = 0 -> roll s = 0 ->
  angular_velocity s = vec 0 0 0 -> velocity s = vec 0 0 0 ->
  let m' := dry_mass s + (fuel_mass s - fuel_consumption_rate s * dt) in
  acceleration (propel s dt) rho g = vec 0 ((thrust s - m' * g) / m') 0.
Proof.
  intros Ht Hf Hleft Hm Hp Hy Hr Hw Hv. cbv zeta.
  assert (Hpropel :
            thrust (propel s dt) = thrust s
            /\ mass (propel s dt)
               = dry_mass s + (fuel_mass s - fuel_consumption_rate s * dt)
            /\ pitch (propel s dt) = 0 /\ yaw (propel s dt) = 0
            /\ roll (propel s dt) = 0).
  { unfold propel. rewrite burn_fuel_set_trail, burn_fuel_burning by lra.
    unfold rotate; cbn. rewrite Hp, Hy, Hr, Hw; cbn.
    replace (0 + 0 * dt) with 0 by ring. rewrite py_mod_0. auto. }
  destruct Hpropel as (Hth & Hma & Hp' & Hy' & Hr').
  unfold acceleration, total_force.
  rewrite calculate_drag_rest, calculate_lift_rest
    by (destruct (propel_motion s dt) as [-> _]; exact Hv).
  rewrite (get_thrust_vector_neutral _ Hp' Hy' Hr'), Hth, Hma.
  rewrite (Rgtb_true _ _ Hm).
  unfold vadd, vscale, vdiv; cbn [vx vy vz]. f_equal; field; lra.
Qed.

Lemma neutral_burn_velocity (s : Rocket) (dt rho g : R) :
  0 < dt -> max_thrust s <> 0 ->
  thrust s > 0 -> 0 < fuel_mass s ->
  fuel_consumption_rate s * dt < fuel_mass s ->
  0 < dry_mass s + (fuel_mass s - fuel_consumption_rate s * dt) ->
  pitch s = 0 -> yaw s = 0 -> roll s = 0 ->
  angular_velocity s = vec 0 0 0 -> velocity s = vec 0 0 0 ->
  let m' := dry_mass s + (fuel_mass s - fuel_consumption_rate s * dt) in
  0 <= (thrust s - m' * g) / m' ->
  velocity (fst (update s dt rho g))
  = vec 0 ((thrust s - m' * g) / m' * dt) 0.
Proof.
  intros Hdt Hnz Ht Hf Hleft Hm Hp Hy Hr Hw Hv. cbv zeta. intros Hup.
  rewrite (update_post_state s dt rho g Hdt Hnz).
  destruct (before_collision_euler s dt rho g) as [Hb _].
  rewrite (neutral_burn_acceleration s dt rho g Ht Hf Hleft Hm Hp Hy Hr Hw Hv),
    Hv in Hb.
  assert (Hb' : velocity (before_collision s dt rho g)
                = vec 0 ((thrust s
                          - (dry_mass s
                             + (fuel_mass s - fuel_consumption_rate s * dt))
                            * g)
                         / (dry_mass s
                            + (fuel_mass s - fuel_consumption_rate s * dt))
                         * dt) 0).
  { rewrite Hb. unfold vadd, vtimes; cbn [vx vy vz]. f_equal; ring. }
  rewrite ground_collision_rising; [exact Hb' |].
  rewrite Hb'. cbn [vy]. apply Rmult_le_pos; lra.
Qed.

(** C5, as stated: Scenario B on the default rocket (thrust 75000, mass
    5000 with 3000 of fuel, neutral orientation, at rest), one tick with
    [dt = 1], [air_density = 0], [gravity = 9.81].  Neither the
    acceleration nor the velocity after the tick is
    [(75000 - 5000 * 9.81) / 5000 = 5.19]: the tick's 5 units of fuel are
    gone before line 208 divides, and [velocity.y] ends above 5.205. *)
Lemma scenario_B_not_at_entry_mass :
  thrust Rocket_init = 75000 /\ mass Rocket_init = 5000
  /\ dry_mass Rocket_init + fuel_mass Rocket_init = 5000
  /\ vy (acceleration (propel Rocket_init 1) 0 9.81)
     <> (75000 - 5000 * 9.81) / 5000
  /\ vy (velocity (fst (update Rocket_init 1 0 9.81))) > 5.205.
Proof.
  assert (Hpos : 0 <= (75000 - (2000 + (3000 - 5 * 1)) * 9.81)
                      / (2000 + (3000 - 5 * 1))).
  { apply Rmult_le_pos; [lra |].
    apply Rlt_le, Rinv_0_lt_compat. lra. }
  assert (Hval : (75000 - (2000 + (3000 - 5 * 1)) * 9.81)
                 / (2000 + (3000 - 5 * 1)) > 5.205).
  { apply Rmult_lt_reg_r with (r := 2000 + (3000 - 5 * 1)); [lra |].
    unfold Rdiv. rewrite Rmult_assoc, Rinv_l by lra. lra. }
  repeat split; cbn [thrust mass dry_mass fuel_mass Rocket_init]; try lra.
  - rewrite (neutral_burn_acceleration Rocket_init 1 0 9.81);
      cbn; try reflexivity; lra.
  - rewrite (neutral_burn_velocity Rocket_init 1 0 9.81);
      cbn; try reflexivity; lra.
Qed.

(** C5, amended: Scenario B with a rocket at rest in neutral orientation
    that is not turning, [thrust = 75000], [dry_mass + fuel_mass = 5000]
    and fuel for the whole tick.  One tick with [dt = 1],
    [air_density = 0], [gravity = 9.81] accelerates it by
    [(75000 - m' * 9.81) / m'], where [m' = 5000 - fuel_consumption_rate]
    is the mass left after the tick's burn, and [velocity.y] is that value
    after the tick; it is 5.19 when nothing is burnt. *)
Theorem scenario_B_post_burn_mass (s : Rocket) :
  thrust s = 75000 -> dry_mass s + fuel_mass s = 5000 -> 0 <= dry_mass s ->
  0 <= fuel_consumption_rate s < fuel_mass s ->
  pitch s = 0 -> yaw s = 0 -> roll s = 0 ->
  angular_velocity s = vec 0 0 0 -> velocity s = vec 0 0 0 ->
  max_thrust s <> 0 ->
  let m' := 5000 - fuel_consumption_rate s * 1 in
  vy (acceleration (propel s 1) 0 9.81) = (75000 - m' * 9.81) / m'
  /\ vy (velocity (fst (update s 1 0 9.81))) = (75000 - m' * 9.81) / m'
  /\ (fuel_consumption_rate s = 0 ->
      vy (velocity (fst (update s 1 0 9.81))) = 5.19).
Proof.
  intros Ht Hm Hd Hrate Hp Hy Hr Hw Hv Hnz. cbv zeta.
  assert (Hm' : dry_mass s + (fuel_mass s - fuel_consumption_rate s * 1)
                = 5000 - fuel_consumption_rate s * 1) by lra.
  assert (Hpos : 0 < 5000 - fuel_consumption_rate s * 1) by lra.
  assert (Hup : 0 <= (75000 - (5000 - fuel_consumption_rate s * 1) * 9.81)
                     / (5000 - fuel_consumption_rate s * 1)).
  { apply Rmult_le_pos; [lra |]. apply Rlt_le, Rinv_0_lt_compat, Hpos. }
  assert (Hacc : acceleration (propel s 1) 0 9.81
                 = vec 0 ((75000 - (5000 - fuel_consumption_rate s * 1) * 9.81)
                          / (5000 - fuel_consumption_rate s * 1)) 0).
  { rewrite (neutral_burn_acceleration s 1 0 9.81); try assumption; try lra.
    now rewrite Hm', Ht. }
  assert (Hvel : velocity (fst (update s 1 0 9.81))
                 = vec 0 ((75000 - (5000 - fuel_consumption_rate s * 1) * 9.81)
                          / (5000 - fuel_consumption_rate s * 1) * 1) 0).
  { rewrite (neutral_burn_velocity s 1 0 9.81); try assumption; try lra.
    - now rewrite Hm', Ht.
    - now rewrite Hm', Ht. }
  rewrite Hacc, Hvel. cbn [vy].
  split; [reflexivity | split; [ring |]].
  intros Hzero. rewrite Hzero. lra.
Qed.

(** The default rocket burns 5 units in the tick: the divisor is 4995. *)
Lemma scenario_B_post_burn_mass_witness :
  vy (acceleration (propel Rocket_init 1) 0 9.81)
  = (75000 - 4995 * 9.81) / 4995
  /\ vy (velocity (fst (update Rocket_init 1 0 9.81)))
     = (75000 - 4995 * 9.81) / 4995.
Proof.
  destruct (scenario_B_post_burn_mass Rocket_init) as (Ha & Hv & _);
    try reflexivity; try (cbn; lra).
  cbv zeta in Ha, Hv. cbn [fuel_consumption_rate Rocket_init] in Ha, Hv.
  replace (5000 - 5 * 1) with 4995 in Ha, Hv by lra.
  split; assumption.
Defined.

(** ** Lift *)

Lemma norm_pos (a : Vec3) : 0 < dot a a -> 0 < norm a.
Proof.
  intros H. unfold norm. apply sqrt_lt_R0.
  unfold dot in H. replace (vx a ^ 2 + vy a ^ 2 + vz a ^ 2)
    with (vx a * vx a + vy a * vy a + vz a * vz a) by ring. exact H.
Qed.

Lemma dot_self_pos (a : Vec3) (k : R) : 0 <= k -> norm a > k -> 0 < dot a a.
Proof.
  intros Hk Ha. rewrite <- norm_sq. nra.
Qed.

(** Lagrange's identity. *)
Lemma dot_cross_self (a b : Vec3) :
  dot (cross a b) (cross a b) = dot a a * dot b b - dot a b ^ 2.
Proof. unfold dot, cross; cbn [vx vy vz]. ring. Qed.

Lemma dot_cross_normalized (v t : Vec3) (k : R) :
  dot v (cross (vdiv v k) t) = 0.
Proof. unfold dot, cross, vdiv, Rdiv; cbn [vx vy vz]. ring. Qed.

Lemma dot_scaled_cross (m k : R) (v c : Vec3) :
  dot (vscale m (vdiv (cross v c) k)) v = 0.
Proof. unfold dot, cross, vdiv, vscale, Rdiv; cbn [vx vy vz]. ring. Qed.

Lemma dot_vzero_l (v : Vec3) : dot (vec 0 0 0) v = 0.
Proof. unfold dot; cbn [vx vy vz]. ring. Qed.

Lemma norm_vscale (m : R) (a : Vec3) : norm (vscale m a) = Rabs m * norm a.
Proof.
  unfold norm, vscale; cbn [vx vy vz].
  replace ((m * vx a) ^ 2 + (m * vy a) ^ 2 + (m * vz a) ^ 2)
    with (Rsqr m * (vx a ^ 2 + vy a ^ 2 + vz a ^ 2))
    by (unfold Rsqr; ring).
  rewrite sqrt_mult_alt by apply Rle_0_sqr.
  now rewrite sqrt_Rsqr_abs.
Qed.

Lemma norm_normalized (a : Vec3) : 0 < norm a -> norm (vdiv a (norm a)) = 1.
Proof.
  intros Hpos.
  replace (vdiv a (norm a)) with (vscale (/ norm a) a)
    by (unfold vdiv, vscale, Rdiv; f_equal; ring).
  rewrite norm_vscale, Rabs_right.
  - field. lra.
  - apply Rle_ge, Rlt_le, Rinv_0_lt_compat, Hpos.
Qed.

(** Under the two guards of [calculate_lift] the vector that is normalized
    on line 154 has length [|v| * |c|], which is positive. *)
Lemma lift_direction_pos (v t : Vec3) :
  norm v > 1 -> norm (cross (vdiv v (norm v)) t) > 0.01 ->
  0 < norm (cross v (cross (vdiv v (norm v)) t)).
Proof.
  intros Hv Hc. apply norm_pos.
  rewrite dot_cross_self, dot_cross_normalized.
  pose proof (dot_self_pos v 1 ltac:(lra) Hv).
  pose proof (dot_self_pos _ 0.01 ltac:(lra) Hc).
  nra.
Qed.

Lemma np_clip_norm (a : Vec3) : np_clip (norm a) 0 1 = py_min (norm a) 1.
Proof.
  unfold np_clip. f_equal. unfold py_max.
  rewrite Rgtb_false; [reflexivity | apply norm_nonneg].
Qed.

(** C9: with [v] the velocity, [t] the thrust direction and
    [c = cross (v / |v|) t], [calculate_lift] returns the zero vector when
    [|v| <= 1] or [|c| <= 0.01]; otherwise [cross v c] is not the zero
    vector, so its normalization does not divide by zero, and the result
    is [0.5 * rho * |v|^2 * |2 pi sin (asin (clip |c| 0 1))| * A] times
    the unit vector along [cross v c], of length the absolute value of
    that factor.  In every case the result is orthogonal to [v]. *)
Theorem lift_postcondition (s : Rocket) (rho : R) :
  let v := velocity s in
  let t := get_thrust_vector s in
  let c := cross (vdiv v (norm v)) t in
  let magnitude :=
    0.5 * rho * norm v ^ 2
    * Rabs (2 * PI * sin (asin (np_clip (norm c) 0 1)))
    * reference_area s in
  let direction := vdiv (cross v c) (norm (cross v c)) in
  (norm v <= 1 \/ norm c <= 0.01 -> calculate_lift s rho = vec 0 0 0)
  /\ (norm v > 1 -> norm c > 0.01 ->
      0 < norm (cross v c)
      /\ norm direction = 1
      /\ calculate_lift s rho = vscale magnitude direction
      /\ norm (calculate_lift s rho) = Rabs magnitude)
  /\ dot (calculate_lift s rho) v = 0.
Proof.
  cbv zeta. split; [| split].
  - intros [Hv | Hc]; unfold calculate_lift.
    + now rewrite (Rgtb_false _ _ Hv).
    + destruct (Rgtb (norm (velocity s)) 1); [| reflexivity].
      now rewrite (Rgtb_false _ _ Hc).
  - intros Hv Hc.
    pose proof (lift_direction_pos (velocity s) (get_thrust_vector s) Hv Hc)
      as Hpos.
    assert (Hlift :
              calculate_lift s rho
              = vscale
                  (0.5 * rho * norm (velocity s) ^ 2
                   * Rabs (2 * PI
                           * sin (asin
                                    (np_clip
                                       (norm
                                          (cross
                                             (vdiv (velocity s)
                                                (norm (velocity s)))
                                             (get_thrust_vector s))) 0 1)))
                   * reference_area s)
                  (vdiv
                     (cross (velocity s)
                        (cross (vdiv (velocity s) (norm (velocity s)))
                           (get_thrust_vector s)))
                     (norm
                        (cross (velocity s)
                           (cross (vdiv (velocity s) (norm (velocity s)))
                              (get_thrust_vector s)))))).
    { unfold calculate_lift.
      rewrite (Rgtb_true _ _ Hv), (Rgtb_true _ _ Hc), (Rgtb_true _ _ Hpos).
      now rewrite np_clip_norm. }
    split; [exact Hpos |].
    split; [apply norm_normalized, Hpos |].
    split; [exact Hlift |].
    rewrite Hlift, norm_vscale, (norm_normalized _ Hpos). ring.
  - unfold calculate_lift.
    destruct (Rgtb _ 1); [| apply dot_vzero_l].
    destruct (Rgtb _ 0.01); [| apply dot_vzero_l].
    destruct (Rgtb _ 0); [| apply dot_vzero_l].
    apply dot_scaled_cross.
Qed.

Lemma norm_eq (a : Vec3) (k : R) : 0 <= k -> dot a a = k * k -> norm a = k.
Proof.
  intros Hk Hd. unfold norm.
  replace (vx a ^ 2 + vy a ^ 2 + vz a ^ 2) with (Rsqr k)
    by (unfold Rsqr; rewrite <- Hd; unfold dot; ring).
  now apply sqrt_Rsqr.
Qed.

(** The default rocket moving sideways at speed 2: the velocity is
    perpendicular to the thrust axis, both guards pass, and the lift is
    [49 pi] along [-y], at right angles to the velocity. *)
Lemma lift_postcondition_witness :
  let s := set_velocity (vec 2 0 0) Rocket_init in
  let c := cross (vdiv (velocity s) (norm (velocity s)))
             (get_thrust_vector s) in
  norm (velocity s) = 2 /\ norm c = 1
  /\ 0 < norm (cross (velocity s) c)
  /\ calculate_lift s 1.225 = vec 0 (- (49 * PI)) 0
  /\ dot (calculate_lift s 1.225) (velocity s) = 0.
Proof.
  cbv zeta.
  set (s := set_velocity (vec 2 0 0) Rocket_init).
  assert (Hv : norm (velocity s) = 2)
    by (apply norm_eq; [lra | unfold dot; cbn; lra]).
  assert (Ht : get_thrust_vector s = vec 0 1 0)
    by (apply get_thrust_vector_neutral; reflexivity).
  assert (Hc : norm (cross (vdiv (velocity s) (norm (velocity s)))
                       (get_thrust_vector s)) = 1).
  { rewrite Hv, Ht. apply norm_eq; [lra |].
    unfold dot, cross, vdiv; cbn. lra. }
  assert (Hd : norm (cross (velocity s)
                       (cross (vdiv (velocity s) (norm (velocity s)))
                          (get_thrust_vector s))) = 2).
  { rewrite Hv, Ht. apply norm_eq; [lra |].
    unfold dot, cross, vdiv; cbn. lra. }
  destruct (lift_postcondition s 1.225) as (_ & Hlift & Horth).
  destruct Hlift as (Hpos & _ & Hlift & _); [lra | lra |].
  repeat split; try assumption.
  rewrite Hlift, Hd, Hc, Hv, Ht.
  unfold np_clip, py_min, py_max.
  rewrite (Rgtb_false 0 1), (Rltb_false 1 1) by lra.
  rewrite sin_asin by lra.
  rewrite Rabs_right by (pose proof PI_RGT_0; lra).
  unfold vscale, vdiv, cross; cbn. f_equal; lra.
Defined.

(** * Further properties of the class *)

(** ** Fields through the phases of [update] *)

Ltac through_burn :=
  unfold burn_fuel;
  match goal with |- context [andb ?a ?b] => destruct (andb a b) end;
  cbn;
  [match goal with |- context [Rleb ?a ?b] => destruct (Rleb a b) end |];
  reflexivity.

Lemma burn_fuel_untouched (s : Rocket) (dt : R) :
  let s' := burn_fuel s dt in
  (dry_mass s' = dry_mass s /\ max_thrust s' = max_thrust s
   /\ drag_coefficient s' = drag_coefficient s
   /\ reference_area s' = reference_area s
   /\ fuel_consumption_rate s' = fuel_consumption_rate s)
  /\ (pitch s' = pitch s /\ yaw s' = yaw s /\ roll s' = roll s
      /\ angular_velocity s' = angular_velocity s)
  /\ trail s' = trail s.
Proof. cbv zeta; repeat split; through_burn. Qed.

Lemma record_loads_untouched (s : Rocket) (rho g : R) :
  let s' := record_loads s rho g in
  (dry_mass s' = dry_mass s /\ max_thrust s' = max_thrust s
   /\ drag_coefficient s' = drag_coefficient s
   /\ reference_area s' = reference_area s
   /\ fuel_consumption_rate s' = fuel_consumption_rate s)
  /\ (pitch s' = pitch s /\ yaw s' = yaw s /\ roll s' = roll s
      /\ angular_velocity s' = angular_velocity s)
  /\ trail s' = trail s /\ engine_temperature s' = engine_temperature s.
Proof. cbv zeta; repeat split; through_loads. Qed.

Lemma ground_collision_untouched (s : Rocket) :
  let s' := ground_collision s in
  (dry_mass s' = dry_mass s /\ max_thrust s' = max_thrust s
   /\ drag_coefficient s' = drag_coefficient s
   /\ reference_area s' = reference_area s
   /\ fuel_consumption_rate s' = fuel_consumption_rate s)
  /\ (pitch s' = pitch s /\ yaw s' = yaw s /\ roll s' = roll s
      /\ angular_velocity s' = angular_velocity s)
  /\ trail s' = trail s /\ engine_temperature s' = engine_temperature s
  /\ structural_stress s' = structural_stress s.
Proof. cbv zeta; repeat split; through_collision. Qed.

(** The fields of [propel s dt] that [burn_fuel] does not decide. *)
Lemma propel_fields (s : Rocket) (dt : R) :
  let s' := propel s dt in
  (dry_mass s' = dry_mass s /\ max_thrust s' = max_thrust s
   /\ drag_coefficient s' = drag_coefficient s
   /\ reference_area s' = reference_area s
   /\ fuel_consumption_rate s' = fuel_consumption_rate s)
  /\ (pitch s' = py_mod (pitch s + vx (angular_velocity s) * dt) 360
      /\ yaw s' = py_mod (yaw s + vy (angular_velocity s) * dt) 360
      /\ roll s' = py_mod (roll s + vz (angular_velocity s) * dt) 360
      /\ angular_velocity s' = vtimes (angular_velocity s) 0.92)
  /\ trail s' = add_point (trail s) (position s).
Proof.
  cbv zeta. unfold propel. rewrite burn_fuel_set_trail.
  destruct (burn_fuel_untouched s dt)
    as ((d1 & d2 & d3 & d4 & d5) & (o1 & o2 & o3 & o4) & tr).
  unfold rotate; cbn. rewrite d1, d2, d3, d4, d5, o1, o2, o3, o4.
  repeat split.
Qed.

(** The same fields after a whole call with [dt > 0], raised or not. *)
Lemma update_fields (s : Rocket) (dt rho g : R) :
  0 < dt ->
  let s' := fst (update s dt rho g) in
  (dry_mass s' = dry_mass s /\ max_thrust s' = max_thrust s
   /\ drag_coefficient s' = drag_coefficient s
   /\ reference_area s' = reference_area s
   /\ fuel_consumption_rate s' = fuel_consumption_rate s)
  /\ (pitch s' = py_mod (pitch s + vx (angular_velocity s) * dt) 360
      /\ yaw s' = py_mod (yaw s + vy (angular_velocity s) * dt) 360
      /\ roll s' = py_mod (roll s + vz (angular_velocity s) * dt) 360
      /\ angular_velocity s' = vtimes (angular_velocity s) 0.92)
  /\ trail s' = add_point (trail s) (position s).
Proof.
  intros Hdt. cbv zeta.
  pose proof (propel_fields s dt) as Hp. cbv zeta in Hp.
  assert (Hb : forall s1,
             s1 = before_temperature s dt rho g ->
             (dry_mass s1 = dry_mass s /\ max_thrust s1 = max_thrust s
              /\ drag_coefficient s1 = drag_coefficient s
              /\ reference_area s1 = reference_area s
              /\ fuel_consumption_rate s1 = fuel_consumption_rate s)
             /\ (pitch s1 = py_mod (pitch s + vx (angular_velocity s) * dt) 360
                 /\ yaw s1 = py_mod (yaw s + vy (angular_velocity s) * dt) 360
                 /\ roll s1
                    = py_mod (roll s + vz (angular_velocity s) * dt) 360
                 /\ angular_velocity s1 = vtimes (angular_velocity s) 0.92)
             /\ trail s1 = add_point (trail s) (position s)).
  { intros s1 ->. unfold before_temperature.
    destruct (record_loads_untouched (propel s dt) rho g)
      as ((d1 & d2 & d3 & d4 & d5) & (o1 & o2 & o3 & o4) & tr & _).
    rewrite d1, d2, d3, d4, d5, o1, o2, o3, o4, tr. exact Hp. }
  unfold update. rewrite (Rleb_false dt 0 Hdt).
  destruct (Req_dec_T _ 0) as [_ | _]; cbn [fst]; [now apply Hb |].
  destruct (ground_collision_untouched (before_collision s dt rho g))
    as ((d1 & d2 & d3 & d4 & d5) & (o1 & o2 & o3 & o4) & tr & _).
  rewrite d1, d2, d3, d4, d5, o1, o2, o3, o4, tr.
  exact (Hb _ eq_refl).
Qed.

(** ** What a call leaves alone, and when it raises *)

(** X1: no call writes the tunable constants: [dry_mass], [max_thrust],
    [drag_coefficient], [reference_area] and [fuel_consumption_rate] are
    the same after [update] as before, whatever the arguments and whether
    or not the call raises. *)
Theorem update_never_writes_tunables (s : Rocket) (dt rho g : R) :
  let s' := fst (update s dt rho g) in
  dry_mass s' = dry_mass s /\ max_thrust s' = max_thrust s
  /\ drag_coefficient s' = drag_coefficient s
  /\ reference_area s' = reference_area s
  /\ fuel_consumption_rate s' = fuel_consumption_rate s.
Proof.
  cbv zeta. destruct (Rle_dec dt 0) as [Hle | Hgt].
  - rewrite (update_noop s dt rho g Hle). cbn. repeat split.
  - apply (update_fields s dt rho g). lra.
Qed.



(** ** Orientation *)




(** X4: the angular velocity is multiplied by 0.92 in every call with
    [dt > 0], independently of [dt]: after a run of ticks with positive
    steps it is the entry value times [0.92 ^ n], [n] the number of
    ticks. *)
Theorem angular_velocity_decays_per_call (ticks : list Tick) (s : Rocket) :
  max_thrust s <> 0 ->
  Forall (fun t => 0 < tick_dt t) ticks ->
  snd (run ticks s) = None
  /\ angular_velocity (fst (run ticks s))
     = vtimes (angular_velocity s) (0.92 ^ length ticks).
Proof.
  intros Hnz Hpos. revert s Hnz.
  induction Hpos as [| t ticks Ht _ IH]; intros s Hnz.
  - cbn. split; [reflexivity |].
    destruct (angular_velocity s); unfold vtimes; cbn. f_equal; ring.
  - rewrite run_cons_returned by (right; exact Hnz).
    destruct (update_fields s (tick_dt t) (tick_air_density t)
                (tick_gravity t) Ht)
      as ((_ & Hmx & _) & (_ & _ & _ & Hav) & _).
    destruct (IH (fst (update s (tick_dt t) (tick_air_density t)
                         (tick_gravity t)))) as [Hret Hrun];
      [rewrite Hmx; exact Hnz |].
    split; [exact Hret |].
    rewrite Hrun, Hav. unfold vtimes; cbn [vx vy vz length pow].
    f_equal; ring.
Qed.

(** Two ticks of very different length: the spin is [0.92 ^ 2] of what it
    was. *)
Lemma angular_velocity_decays_per_call_witness :
  let s := set_angular_velocity (vec 100 0 0) Rocket_init in
  let ticks := [ {| tick_dt := 0.001; tick_air_density := 1.225;
                    tick_gravity := 9.81 |};
                 {| tick_dt := 2; tick_air_density := 1.225;
                    tick_gravity := 9.81 |} ] in
  vx (angular_velocity (fst (run ticks s))) = 84.64.
Proof.
  cbv zeta.
  match goal with
  | |- vx (angular_velocity (fst (run ?l ?s))) = _ =>
      destruct (angular_velocity_decays_per_call l s) as [_ H]
  end.
  - cbn. lra.
  - repeat constructor; cbn; lra.
  - rewrite H. cbn. lra.
Defined.

(** ** Fuel, temperature, loads *)

Lemma burn_fuel_le (s : Rocket) (dt : R) :
  0 <= fuel_consumption_rate s * dt ->
  fuel_mass (burn_fuel s dt) <= fuel_mass s.
Proof.
  intros Hused.
  destruct (burn_fuel_fuel_cases s dt) as [(_ & Hf & ->) | (_ & -> & _)];
    [| lra].
  unfold py_max, Rgtb. destruct (Rgt_dec _ 0); lra.
Qed.

Lemma update_fuel_le (s : Rocket) (dt rho g : R) :
  0 <= fuel_consumption_rate s ->
  fuel_mass (fst (update s dt rho g)) <= fuel_mass s.
Proof.
  intros Hrate. destruct (Rle_dec dt 0) as [Hle | Hgt].
  - rewrite (update_noop s dt rho g Hle). cbn. lra.
  - destruct (update_engine s dt rho g ltac:(lra)) as (_ & _ & _ & _ & ->).
    apply burn_fuel_le. apply Rmult_le_pos; lra.
Qed.

Lemma update_rate_same (s : Rocket) (dt rho g : R) :
  fuel_consumption_rate (fst (update s dt rho g)) = fuel_consumption_rate s.
Proof.
  destruct (Rle_dec dt 0) as [Hle | Hgt].
  - now rewrite (update_noop s dt rho g Hle).
  - apply (update_fields s dt rho g). lra.
Qed.

(** X5: with a non-negative [fuel_consumption_rate] the tank never
    refills: [fuel_mass] after a call is at most [fuel_mass] before it, for
    every [dt], and so along every run of ticks. *)
Theorem fuel_never_increases (ticks : list Tick) (s : Rocket) :
  0 <= fuel_consumption_rate s ->
  fuel_mass (fst (run ticks s)) <= fuel_mass s.
Proof.
  revert s. induction ticks as [| t ticks IH]; intros s Hrate.
  - cbn. lra.
  - cbn [run].
    pose proof (update_fuel_le s (tick_dt t) (tick_air_density t)
                  (tick_gravity t) Hrate) as Hstep.
    pose proof (update_rate_same s (tick_dt t) (tick_air_density t)
                  (tick_gravity t)) as Hr.
    destruct (update s (tick_dt t) (tick_air_density t) (tick_gravity t))
      as [s' [tel | e]]; cbn [fst] in *.
    + specialize (IH s'). rewrite Hr in IH. specialize (IH Hrate). lra.
    + exact Hstep.
Qed.

(** Two ticks of the default rocket: 10 units burnt. *)
Lemma fuel_never_increases_witness :
  fuel_mass (fst (run (constant_ticks 2 1 1.225 9.81) Rocket_init))
  <= 3000.
Proof.
  apply (fuel_never_increases (constant_ticks 2 1 1.225 9.81) Rocket_init).
  cbn. lra.
Defined.

(** X6: a burn that needs at least what is left in the tank empties it
    exactly: the call ends with [fuel_mass = 0], [thrust = 0] and
    [mass = dry_mass]. *)
Theorem burn_out (s : Rocket) (dt rho g : R) :
  0 < dt -> thrust s > 0 -> 0 < fuel_mass s ->
  fuel_mass s <= fuel_consumption_rate s * dt ->
  let s' := fst (update s dt rho g) in
  fuel_mass s' = 0 /\ thrust s' = 0 /\ mass s' = dry_mass s.
Proof.
  intros Hdt Ht Hf Hall. cbv zeta.
  destruct (update_engine s dt rho g Hdt) as (-> & _ & -> & _ & ->).
  unfold burn_fuel. rewrite (Rgtb_true _ _ Ht), (Rgtb_true _ _ Hf). cbn.
  unfold py_max. rewrite (Rgtb_false (fuel_mass s - _) 0) by lra.
  rewrite (Rleb_true 0 0) by lra. cbn. repeat split. ring.
Qed.

(** A tenth of a unit left, five burnt per second, one second. *)
Lemma burn_out_witness :
  let s' := fst (update (set_fuel_mass 0.1 Rocket_init) 1 1.225 9.81) in
  fuel_mass s' = 0 /\ thrust s' = 0 /\ mass s' = 2000.
Proof.
  apply (burn_out (set_fuel_mass 0.1 Rocket_init) 1 1.225 9.81);
    cbn; lra.
Defined.

Lemma update_engine_temperature (s : Rocket) (dt rho g : R) :
  0 < dt -> max_thrust s <> 0 ->
  engine_temperature (fst (update s dt rho g))
  = 300 + thrust (fst (update s dt rho g)) / max_thrust s * 2000.
Proof.
  intros Hdt Hnz.
  destruct (update_engine s dt rho g Hdt) as (-> & _).
  rewrite (update_post_state s dt rho g Hdt Hnz).
  destruct (ground_collision_untouched (before_collision s dt rho g))
    as (_ & _ & _ & -> & _).
  unfold before_collision, euler; cbn.
  destruct (before_temperature_engine s dt rho g) as (Ht & Hm & _).
  unfold before_temperature in Ht, Hm.
  rewrite burn_fuel_set_trail in Ht. cbn in Ht.
  now rewrite Ht, Hm.
Qed.

Lemma update_engine_temperature_bounds (s : Rocket) (dt rho g : R) :
  0 < dt -> max_thrust s <> 0 -> 0 <= thrust s <= max_thrust s ->
  300 <= engine_temperature (fst (update s dt rho g)) <= 2300.
Proof.
  intros Hdt Hnz Hin.
  rewrite (update_engine_temperature s dt rho g Hdt Hnz).
  destruct (update_engine s dt rho g Hdt) as (-> & _).
  assert (Hmx : 0 < max_thrust s) by lra.
  assert (Hth : 0 <= thrust (burn_fuel s dt) <= max_thrust s)
    by (destruct (burn_fuel_thrust s dt) as [-> | ->]; lra).
  assert (Hq : 0 <= thrust (burn_fuel s dt) / max_thrust s <= 1).
  { split.
    - apply Rmult_le_pos; [lra | apply Rlt_le, Rinv_0_lt_compat, Hmx].
    - apply Rmult_le_reg_r with (r := max_thrust s); [exact Hmx |].
      unfold Rdiv. rewrite Rmult_assoc, Rinv_l by lra. lra. }
  lra.
Qed.

(** X7: a call with [dt > 0] that returns leaves
    [engine_temperature = 300 + thrust / max_thrust * 2000] for the
    [thrust] it leaves; with the throttle within [[0, max_thrust]] on entry
    this is between 300 and 2300. *)
Theorem engine_temperature_range (s : Rocket) (dt rho g : R) :
  0 < dt -> max_thrust s <> 0 ->
  let s' := fst (update s dt rho g) in
  engine_temperature s' = 300 + thrust s' / max_thrust s' * 2000
  /\ (0 <= thrust s <= max_thrust s ->
      300 <= engine_temperature s' <= 2300).
Proof.
  intros Hdt Hnz. cbv zeta. split.
  - rewrite (update_engine_temperature s dt rho g Hdt Hnz).
    destruct (update_engine s dt rho g Hdt) as (_ & -> & _). reflexivity.
  - now apply update_engine_temperature_bounds.
Qed.

(** The default rocket: 75000 of 200000 gives 1050. *)
Lemma engine_temperature_range_witness :
  engine_temperature (fst (update Rocket_init 1 1.225 9.81)) = 1050.
Proof.
  destruct (engine_temperature_range Rocket_init 1 1.225 9.81) as [H _];
    [lra | cbn; lra |].
  rewrite H.
  destruct (update_engine Rocket_init 1 1.225 9.81 ltac:(lra))
    as (-> & -> & _).
  rewrite burn_fuel_burning by (cbn; lra). cbn. lra.
Defined.

Lemma ground_collision_above (s : Rocket) :
  0 <= vy (position (ground_collision s)).
Proof.
  unfold ground_collision, Rltb.
  destruct (Rlt_dec (vy (position s)) 0) as [Hneg | Hpos].
  - cbn. destruct (Rlt_dec (vy (velocity s)) 0); cbn; lra.
  - lra.
Qed.

(** X8: a call with [dt > 0] that returns never leaves the rocket below
    the ground: [position.y >= 0] after it, and so is the [altitude] of its
    snapshot, whatever the entry height and however large the step. *)
Theorem altitude_never_negative (s : Rocket) (dt rho g : R) :
  0 < dt -> max_thrust s <> 0 ->
  0 <= vy (position (fst (update s dt rho g)))
  /\ exists tel, snd (update s dt rho g) = Returned tel
                 /\ 0 <= t_altitude tel.
Proof.
  intros Hdt Hnz.
  assert (Hpos : 0 <= vy (position (fst (update s dt rho g)))).
  { rewrite (update_post_state s dt rho g Hdt Hnz).
    apply ground_collision_above. }
  split; [exact Hpos |].
  exists (get_telemetry (fst (update s dt rho g))).
  split; [apply update_returns; right; exact Hnz | exact Hpos].
Qed.

(** A rocket 1000 under the ground comes back to the surface. *)
Lemma altitude_never_negative_witness :
  0 <= vy (position
             (fst (update (set_position (vec 0 (-1000) 0) Rocket_init)
                     1 1.225 9.81))).
Proof.
  apply (altitude_never_negative
           (set_position (vec 0 (-1000) 0) Rocket_init) 1 1.225 9.81).
  - lra.
  - cbn. lra.
Defined.

(** X9: the watermark of a tick is taken at the velocity the rocket
    enters with: for [dt > 0], [max_q] after the call is the larger of the
    old [max_q] and [0.5 * air_density * |velocity|^2] of the entry
    velocity; the velocity the tick ends with does not enter it. *)
Theorem max_q_records_entry_pressure (s : Rocket) (dt rho g : R) :
  0 < dt ->
  max_q (fst (update s dt rho g))
  = Rmax (max_q s) (0.5 * rho * dot (velocity s) (velocity s)).
Proof.
  intros Hdt.
  assert (Hb : max_q (before_temperature s dt rho g)
               = Rmax (max_q s) (0.5 * rho * dot (velocity s) (velocity s))).
  { unfold before_temperature.
    rewrite record_loads_max_q, propel_max_q, py_max_Rmax.
    unfold calculate_dynamic_pressure.
    destruct (propel_motion s dt) as [-> _]. now rewrite norm_sq. }
  unfold update. rewrite (Rleb_false dt 0 Hdt).
  destruct (Req_dec_T _ 0) as [_ | _]; cbn [fst]; [exact Hb |].
  destruct (ground_collision_engine (before_collision s dt rho g))
    as (_ & _ & _ & _ & _ & ->).
  destruct (before_collision_engine s dt rho g) as (_ & _ & _ & _ & _ & ->).
  exact Hb.
Qed.

(** The default rocket starts at rest: its first tick records no
    pressure, although it ends the tick moving. *)
Lemma max_q_records_entry_pressure_witness :
  max_q (fst (update Rocket_init 1 1.225 9.81)) = 0.
Proof.
  rewrite (max_q_records_entry_pressure Rocket_init 1 1.225 9.81) by lra.
  unfold dot; cbn. unfold Rmax. destruct (Rle_dec 0 _); lra.
Defined.

(** ** The rotation model *)

Lemma matvec_matmul (a b : Mat3) (v : Vec3) :
  matvec (matmul a b) v = matvec a (matvec b v).
Proof.
  unfold matvec, matmul, vecmat, col0, col1, col2, dot;
    cbn [vx vy vz row0 row1 row2]. f_equal; ring.
Qed.

Lemma cos2_sin2 (x : R) : cos x * cos x + sin x * sin x = 1.
Proof. pose proof (sin2_cos2 x) as H. unfold Rsqr in H. lra. Qed.

(** Each elementary rotation keeps the squared length. *)
Lemma rot_x_isometry (c sn : R) (v : Vec3) :
  c * c + sn * sn = 1 ->
  dot (matvec (mat (vec 1 0 0) (vec 0 c (- sn)) (vec 0 sn c)) v)
      (matvec (mat (vec 1 0 0) (vec 0 c (- sn)) (vec 0 sn c)) v)
  = dot v v.
Proof.
  intros H. unfold matvec, dot; cbn [vx vy vz row0 row1 row2].
  replace (vx v * vx v + vy v * vy v + vz v * vz v)
    with (vx v * vx v + (c * c + sn * sn) * (vy v * vy v + vz v * vz v))
    by (rewrite H; ring).
  ring.
Qed.

Lemma rot_y_isometry (c sn : R) (v : Vec3) :
  c * c + sn * sn = 1 ->
  dot (matvec (mat (vec c 0 sn) (vec 0 1 0) (vec (- sn) 0 c)) v)
      (matvec (mat (vec c 0 sn) (vec 0 1 0) (vec (- sn) 0 c)) v)
  = dot v v.
Proof.
  intros H. unfold matvec, dot; cbn [vx vy vz row0 row1 row2].
  replace (vx v * vx v + vy v * vy v + vz v * vz v)
    with (vy v * vy v + (c * c + sn * sn) * (vx v * vx v + vz v * vz v))
    by (rewrite H; ring).
  ring.
Qed.

Lemma rot_z_isometry (c sn : R) (v : Vec3) :
  c * c + sn * sn = 1 ->
  dot (matvec (mat (vec c (- sn) 0) (vec sn c 0) (vec 0 0 1)) v)
      (matvec (mat (vec c (- sn) 0) (vec sn c 0) (vec 0 0 1)) v)
  = dot v v.
Proof.
  intros H. unfold matvec, dot; cbn [vx vy vz row0 row1 row2].
  replace (vx v * vx v + vy v * vy v + vz v * vz v)
    with (vz v * vz v + (c * c + sn * sn) * (vx v * vx v + vy v * vy v))
    by (rewrite H; ring).
  ring.
Qed.

Lemma norm_of_dot (a b : Vec3) : dot a a = dot b b -> norm a = norm b.
Proof.
  intros H. unfold norm.
  replace (vx a ^ 2 + vy a ^ 2 + vz a ^ 2) with (dot a a)
    by (unfold dot; ring).
  replace (vx b ^ 2 + vy b ^ 2 + vz b ^ 2) with (dot b b)
    by (unfold dot; ring).
  now rewrite H.
Qed.

Lemma rotation_dot (s : Rocket) (v : Vec3) :
  dot (matvec (get_rotation_matrix s) v) (matvec (get_rotation_matrix s) v)
  = dot v v.
Proof.
  unfold get_rotation_matrix. cbv zeta.
  rewrite !matvec_matmul.
  rewrite rot_y_isometry by apply cos2_sin2.
  rewrite rot_x_isometry by apply cos2_sin2.
  apply rot_z_isometry, cos2_sin2.
Qed.

(** X10: the matrix of [get_rotation_matrix] is a rotation in that it
    keeps lengths: for every pitch, yaw and roll and every vector [v],
    [|R v| = |v|]. *)
Theorem rotation_keeps_length (s : Rocket) (v : Vec3) :
  norm (matvec (get_rotation_matrix s) v) = norm v.
Proof. apply norm_of_dot, rotation_dot. Qed.

Lemma get_thrust_vector_norm (s : Rocket) : norm (get_thrust_vector s) = 1.
Proof.
  unfold get_thrust_vector. cbv zeta.
  rewrite (norm_of_dot _ (vec 0 1 0)) by apply rotation_dot.
  apply norm_eq; [lra | unfold dot; cbn; lra].
Qed.

(** X11: the thrust direction is
    [(sin yaw sin pitch cos roll - cos yaw sin roll, cos pitch cos roll,
      cos yaw sin pitch cos roll + sin yaw sin roll)]
    of the angles in radians, a unit vector for every orientation. *)
Theorem thrust_direction_unit (s : Rocket) :
  let p := radians (pitch s) in
  let y := radians (yaw s) in
  let r := radians (roll s) in
  get_thrust_vector s
  = vec (sin y * sin p * cos r - cos y * sin r)
        (cos p * cos r)
        (cos y * sin p * cos r + sin y * sin r)
  /\ norm (get_thrust_vector s) = 1.
Proof.
  cbv zeta. split.
  - unfold get_thrust_vector, get_rotation_matrix.
    unfold matvec, matmul, vecmat, col0, col1, col2, dot;
      cbn [vx vy vz row0 row1 row2]. f_equal; ring.
  - apply get_thrust_vector_norm.
Qed.

(** ** Drag and angle of attack *)

Lemma norm_vdiv_vneg (v : Vec3) :
  0 < norm v -> norm (vdiv (vneg v) (norm v)) = 1.
Proof.
  intros Hpos.
  replace (vdiv (vneg v) (norm v)) with (vscale (- / norm v) v)
    by (unfold vdiv, vneg, vscale, Rdiv; cbn [vx vy vz]; f_equal; ring).
  rewrite norm_vscale, Rabs_Ropp, Rabs_right.
  - field. lra.
  - apply Rle_ge, Rlt_le, Rinv_0_lt_compat, Hpos.
Qed.

(** X12: [calculate_drag] returns the zero vector when [|v| <= 0.1];
    otherwise it returns [k = 0.5 rho |v|^2 Cd A] times the unit vector
    [-v / |v|], a vector of length [|k|] whose product with the velocity
    is [-k |v|], so that it opposes the motion whenever [k >= 0].  In
    every case it is parallel to the velocity. *)
Theorem drag_opposes_velocity (s : Rocket) (rho : R) :
  let v := velocity s in
  let k :=
    0.5 * rho * norm v ^ 2 * drag_coefficient s * reference_area s in
  (norm v <= 0.1 -> calculate_drag s rho = vec 0 0 0)
  /\ (norm v > 0.1 ->
      calculate_drag s rho = vscale k (vdiv (vneg v) (norm v))
      /\ norm (vdiv (vneg v) (norm v)) = 1
      /\ norm (calculate_drag s rho) = Rabs k
      /\ dot (calculate_drag s rho) v = - k * norm v)
  /\ cross (calculate_drag s rho) v = vec 0 0 0.
Proof.
  cbv zeta. split; [| split].
  - intros Hv. unfold calculate_drag. now rewrite (Rgtb_false _ _ Hv).
  - intros Hv.
    assert (Hd : calculate_drag s rho
                 = vscale (0.5 * rho * norm (velocity s) ^ 2
                           * drag_coefficient s * reference_area s)
                     (vdiv (vneg (velocity s)) (norm (velocity s)))).
    { unfold calculate_drag. now rewrite (Rgtb_true _ _ Hv). }
    assert (Hpos : 0 < norm (velocity s)) by lra.
    split; [exact Hd |]. split; [apply norm_vdiv_vneg, Hpos |].
    split.
    + rewrite Hd, norm_vscale, (norm_vdiv_vneg _ Hpos). ring.
    + rewrite Hd.
      transitivity
        (- (0.5 * rho * norm (velocity s) ^ 2 * drag_coefficient s
            * reference_area s)
         * (dot (velocity s) (velocity s) / norm (velocity s))).
      * unfold dot, vscale, vdiv, vneg, Rdiv; cbn [vx vy vz]. ring.
      * rewrite <- norm_sq. field. lra.
  - unfold calculate_drag. destruct (Rgtb _ 0.1).
    + unfold cross, vscale, vdiv, vneg, Rdiv; cbn [vx vy vz]. f_equal; ring.
    + unfold cross; cbn [vx vy vz]. f_equal; ring.
Qed.

(** The default rocket moving at (3, 4, 0) in sea-level air: speed 5,
    [k = 68.90625], and the drag points along (-3, -4, 0). *)
Lemma drag_opposes_velocity_witness :
  let s := set_velocity (vec 3 4 0) Rocket_init in
  norm (velocity s) = 5
  /\ norm (calculate_drag s 1.225) = 68.90625
  /\ dot (calculate_drag s 1.225) (velocity s) = - 344.53125.
Proof.
  cbv zeta.
  set (s := set_velocity (vec 3 4 0) Rocket_init).
  assert (Hn : norm (velocity s) = 5)
    by (apply norm_eq; [lra | unfold dot; cbn; lra]).
  destruct (drag_opposes_velocity s 1.225) as (_ & H & _).
  destruct H as (_ & _ & Hnorm & Hdot); [lra |].
  split; [exact Hn |].
  rewrite Hnorm, Hdot, Hn. cbn [drag_coefficient reference_area s
                                 set_velocity Rocket_init].
  split; [rewrite Rabs_right |]; lra.
Defined.

Lemma np_clip_range (x lo hi : R) : lo <= hi -> lo <= np_clip x lo hi <= hi.
Proof.
  intros H. unfold np_clip, py_min, py_max, Rltb, Rgtb.
  destruct (Rgt_dec lo x); destruct (Rlt_dec hi _); lra.
Qed.

(** X13: [get_angle_of_attack] is always between 0 and 180 degrees, and
    is 0 when [|v| <= 0.1]. *)
Theorem angle_of_attack_range (s : Rocket) :
  0 <= get_angle_of_attack s <= 180
  /\ (norm (velocity s) <= 0.1 -> get_angle_of_attack s = 0).
Proof.
  split.
  - unfold get_angle_of_attack. destruct (Rgtb _ 0.1); [| lra].
    cbv zeta. unfold degrees.
    match goal with |- context [acos ?x] =>
      pose proof (acos_bound x) as [Hlo Hhi] end.
    pose proof PI_RGT_0 as Hpi.
    assert (Hk : 0 < 180 / PI)
      by (apply Rmult_lt_0_compat; [lra | apply Rinv_0_lt_compat, Hpi]).
    split.
    + apply Rmult_le_pos; lra.
    + match goal with |- ?a * _ <= _ =>
        apply Rle_trans with (PI * (180 / PI));
        [apply Rmult_le_compat_r; lra | right; field; lra] end.
  - intros Hv. unfold get_angle_of_attack. now rewrite (Rgtb_false _ _ Hv).
Qed.

(** X14: a rocket moving straight along its thrust axis has angle of
    attack 0, and one moving straight against it has 180. *)
Theorem angle_of_attack_axial (s : Rocket) (k : R) :
  velocity s = vscale k (get_thrust_vector s) ->
  (k > 0.1 -> get_angle_of_attack s = 0)
  /\ (k < -0.1 -> get_angle_of_attack s = 180).
Proof.
  intros Hv.
  pose proof (get_thrust_vector_norm s) as Hu.
  assert (Hn : norm (velocity s) = Rabs k)
    by (rewrite Hv, norm_vscale, Hu; ring).
  assert (Hdot : forall n, n <> 0 ->
            dot (get_thrust_vector s) (vdiv (velocity s) n) = k / n).
  { intros n Hnz. rewrite Hv.
    transitivity (k * dot (get_thrust_vector s) (get_thrust_vector s) / n).
    - unfold dot, vdiv, vscale, Rdiv; cbn [vx vy vz]. ring.
    - rewrite <- norm_sq, Hu. field. exact Hnz. }
  split; intros Hk; unfold get_angle_of_attack; rewrite Hn.
  - rewrite Rabs_right by lra. rewrite (Rgtb_true k 0.1 Hk).
    cbv zeta. rewrite Hdot by lra.
    replace (k / k) with 1 by (field; lra).
    unfold np_clip, py_min, py_max.
    rewrite (Rgtb_false (-1) 1), (Rltb_false 1 1) by lra.
    rewrite acos_1. unfold degrees. ring.
  - rewrite Rabs_left by lra. rewrite (Rgtb_true (- k) 0.1) by lra.
    cbv zeta. rewrite Hdot by lra.
    replace (k / - k) with (-1) by (field; lra).
    unfold np_clip, py_min, py_max.
    rewrite (Rgtb_false (-1) (-1)), (Rltb_false 1 (-1)) by lra.
    replace (acos (-1)) with PI
      by (replace (-1) with (- (1)) by lra; rewrite acos_opp, acos_1; ring).
    unfold degrees. field. pose proof PI_RGT_0; lra.
Qed.

(** Climbing and falling along the axis of the upright default rocket. *)
Lemma angle_of_attack_axial_witness :
  get_angle_of_attack (set_velocity (vec 0 5 0) Rocket_init) = 0
  /\ get_angle_of_attack (set_velocity (vec 0 (-5) 0) Rocket_init) = 180.
Proof.
  split.
  - apply (angle_of_attack_axial (set_velocity (vec 0 5 0) Rocket_init) 5);
      [| lra].
    rewrite get_thrust_vector_neutral by reflexivity.
    unfold vscale; cbn. f_equal; lra.
  - apply (angle_of_attack_axial
             (set_velocity (vec 0 (-5) 0) Rocket_init) (-5)); [| lra].
    rewrite get_thrust_vector_neutral by reflexivity.
    unfold vscale; cbn. f_equal; lra.
Defined.

(** ** More of the telemetry *)

(** X15: the [thrust] entry of the telemetry is the absolute value of
    the throttle (the throttle itself when it is not negative), and the
    [thrust_direction] entry is a unit vector. *)
Theorem telemetry_thrust_is_throttle (s : Rocket) :
  t_thrust (get_telemetry s) = Rabs (thrust s)
  /\ (0 <= thrust s -> t_thrust (get_telemetry s) = thrust s)
  /\ norm (t_thrust_direction (get_telemetry s)) = 1.
Proof.
  assert (H : t_thrust (get_telemetry s) = Rabs (thrust s)).
  { change (t_thrust (get_telemetry s))
      with (norm (vscale (thrust s) (get_thrust_vector s))).
    rewrite norm_vscale, get_thrust_vector_norm. ring. }
  split; [exact H | split].
  - intros Hpos. rewrite H. apply Rabs_right. lra.
  - apply get_thrust_vector_norm.
Qed.

Lemma norm_vdiv_pos (a : Vec3) (m : R) :
  0 < m -> norm (vdiv a m) = norm a / m.
Proof.
  intros Hm.
  replace (vdiv a m) with (vscale (/ m) a)
    by (unfold vdiv, vscale, Rdiv; f_equal; ring).
  rewrite norm_vscale, Rabs_right.
  - unfold Rdiv. ring.
  - apply Rle_ge, Rlt_le, Rinv_0_lt_compat, Hm.
Qed.

Lemma record_loads_stress (s : Rocket) (rho g : R) :
  structural_stress (record_loads s rho g)
  = norm (acceleration s rho g) / 9.81.
Proof.
  unfold record_loads, acceleration. cbn [mass set_max_q].
  unfold Rgtb. destruct (Rgt_dec (mass s) 0) as [Hm | Hm]; cbn.
  - now rewrite norm_vdiv_pos by lra.
  - rewrite norm_vzero. lra.
Qed.

(** X16: the structural load a call with [dt > 0] leaves is the length
    of the acceleration it integrates, in units of 9.81, gravity
    included: free fall in vacuum under [gravity = 9.81] reads 1, and a
    rocket without mass reads 0. *)
Theorem g_force_is_acceleration (s : Rocket) (dt rho g : R) :
  0 < dt ->
  structural_stress (fst (update s dt rho g))
  = norm (acceleration (propel s dt) rho g) / 9.81
  /\ 0 <= structural_stress (fst (update s dt rho g)).
Proof.
  intros Hdt.
  assert (Hs : structural_stress (fst (update s dt rho g))
               = norm (acceleration (propel s dt) rho g) / 9.81).
  { unfold update. rewrite (Rleb_false dt 0 Hdt).
    destruct (Req_dec_T _ 0) as [_ | _]; cbn [fst].
    - apply record_loads_stress.
    - destruct (ground_collision_untouched (before_collision s dt rho g))
        as (_ & _ & _ & _ & ->).
      unfold before_collision, euler; cbn. apply record_loads_stress. }
  split; [exact Hs |].
  rewrite Hs. pose proof (norm_nonneg (acceleration (propel s dt) rho g)).
  apply Rmult_le_pos; lra.
Qed.

(** The default rocket with the throttle closed, in vacuum: 1 g. *)
Lemma g_force_is_acceleration_witness :
  structural_stress (fst (update (set_thrust 0 Rocket_init) 1 0 9.81)) = 1.
Proof.
  destruct (g_force_is_acceleration (set_thrust 0 Rocket_init) 1 0 9.81)
    as [H _]; [lra |].
  rewrite H, free_fall_acceleration by (cbn; lra).
  rewrite (norm_eq _ 9.81) by (unfold dot; cbn; lra). lra.
Defined.

(** X17: the [drag] entry of the telemetry is the absolute value of
    [dynamic_pressure * drag_coefficient * reference_area] when the speed
    exceeds 0.1, and 0 otherwise, although [dynamic_pressure] itself does
    not vanish at low speed. *)
Theorem telemetry_drag_from_pressure (s : Rocket) :
  let tel := get_telemetry s in
  (t_velocity tel > 0.1 ->
   t_drag tel
   = Rabs (t_dynamic_pressure tel * drag_coefficient s * reference_area s))
  /\ (t_velocity tel <= 0.1 -> t_drag tel = 0)
  /\ t_dynamic_pressure tel = 0.5 * 1.225 * t_velocity tel ^ 2.
Proof.
  cbv zeta.
  change (t_velocity (get_telemetry s)) with (norm (velocity s)).
  change (t_drag (get_telemetry s)) with (norm (calculate_drag s 1.225)).
  change (t_dynamic_pressure (get_telemetry s))
    with (0.5 * 1.225 * norm (velocity s) ^ 2).
  split; [| split; [| reflexivity]].
  - intros Hv. unfold calculate_drag. rewrite (Rgtb_true _ _ Hv).
    cbv zeta. rewrite norm_vscale, norm_vdiv_vneg by lra. ring.
  - intros Hv. unfold calculate_drag. rewrite (Rgtb_false _ _ Hv).
    apply norm_vzero.
Qed.

(** ** The smoke trail *)

Lemma add_point_length (points : list Vec3) (p : Vec3) :
  (length points <= trail_maxlen)%nat ->
  (length (add_point points p) <= trail_maxlen)%nat.
Proof.
  intros Hlen. unfold add_point. cbv zeta.
  destruct (Nat.ltb_spec trail_maxlen (length (points ++ [p])))
    as [Hfull | Hok]; [| exact Hok].
  rewrite length_app in Hfull. cbn in Hfull.
  destruct points as [| q points]; cbn in *; [lia |].
  rewrite length_app. cbn. lia.
Qed.

(** X18: [add_point] on a trail of at most 60 points: below 60 the point
    is appended; at 60 the oldest point is dropped and the point appended.
    Either way the trail ends with the new point and has at most 60
    points. *)
Theorem trail_is_bounded_queue (points : list Vec3) (p : Vec3) :
  (length points <= 60)%nat ->
  ((length points < 60)%nat -> add_point points p = points ++ [p])
  /\ (length points = 60%nat -> add_point points p = tl points ++ [p])
  /\ last (add_point points p) p = p
  /\ (length (add_point points p) <= 60)%nat.
Proof.
  intros Hlen.
  assert (Hlt : (length points < 60)%nat -> add_point points p = points ++ [p]).
  { intros H. unfold add_point. cbv zeta.
    destruct (Nat.ltb_spec trail_maxlen (length (points ++ [p])))
      as [Hfull | _]; [| reflexivity].
    rewrite length_app in Hfull. cbn in Hfull. unfold trail_maxlen in Hfull.
    lia. }
  assert (Heq : length points = 60%nat ->
                add_point points p = tl points ++ [p]).
  { intros H. unfold add_point. cbv zeta.
    destruct (Nat.ltb_spec trail_maxlen (length (points ++ [p])))
      as [_ | Hok].
    - destruct points; [discriminate H | reflexivity].
    - rewrite length_app, H in Hok. cbn in Hok. unfold trail_maxlen in Hok.
      lia. }
  split; [exact Hlt | split; [exact Heq | split]].
  - destruct (Nat.eq_dec (length points) 60) as [H | H].
    + rewrite (Heq H). apply last_last.
    + rewrite Hlt by lia. apply last_last.
  - apply add_point_length. exact Hlen.
Qed.

Lemma trail_is_bounded_queue_witness :
  add_point [vec 1 2 3] (vec 4 5 6) = [vec 1 2 3; vec 4 5 6].
Proof.
  apply (trail_is_bounded_queue [vec 1 2 3] (vec 4 5 6)); cbn; lia.
Defined.

(** X19: along any run of ticks a trail of at most 60 points stays at
    most 60 points long, and every call with [dt > 0] appends the position
    the rocket had on entry, before the move of that tick. *)
Theorem trail_follows_rocket (ticks : list Tick) (s : Rocket) :
  (length (trail s) <= 60)%nat ->
  (length (trail (fst (run ticks s))) <= 60)%nat
  /\ (forall dt rho g, 0 < dt ->
        trail (fst (update s dt rho g)) = add_point (trail s) (position s)
        /\ last (trail (fst (update s dt rho g))) (position s) = position s).
Proof.
  intros Hlen. split.
  - revert s Hlen. induction ticks as [| t ticks IH]; intros s Hlen.
    + exact Hlen.
    + cbn [run].
      assert (Hstep : (length (trail (fst (update s (tick_dt t)
                                            (tick_air_density t)
                                            (tick_gravity t)))) <= 60)%nat).
      { destruct (Rle_dec (tick_dt t) 0) as [Hle | Hgt].
        - now rewrite (update_noop s _ _ _ Hle).
        - destruct (update_fields s (tick_dt t) (tick_air_density t)
                      (tick_gravity t) ltac:(lra)) as (_ & _ & ->).
          now apply add_point_length. }
      destruct (update s (tick_dt t) (tick_air_density t) (tick_gravity t))
        as [s' [tel | e]]; cbn [fst] in *.
      * now apply IH.
      * exact Hstep.
  - intros dt rho g Hdt.
    destruct (update_fields s dt rho g Hdt) as (_ & _ & ->).
    split; [reflexivity |].
    unfold add_point. cbv zeta.
    destruct (trail_maxlen <? length (trail s ++ [position s]))%nat.
    + destruct (trail s) as [| q l]; cbn [app tl]; [reflexivity |].
      apply last_last.
    + apply last_last.
Qed.

Lemma trail_follows_rocket_witness :
  (length (trail (fst (run (constant_ticks 3 1 1.225 9.81) Rocket_init)))
   <= 60)%nat.
Proof.
  apply (trail_follows_rocket (constant_ticks 3 1 1.225 9.81) Rocket_init).
  cbn. lia.
Defined.

(** ** The driver's controls *)

Lemma py_max_cases (a b : R) :
  (b > a /\ py_max a b = b) \/ (b <= a /\ py_max a b = a).
Proof. unfold py_max, Rgtb. destruct (Rgt_dec b a); [left | right]; lra. Qed.

Lemma py_min_cases (a b : R) :
  (b < a /\ py_min a b = b) \/ (a <= b /\ py_min a b = a).
Proof. unfold py_min, Rltb. destruct (Rlt_dec b a); [left | right]; lra. Qed.

Lemma when_keeps (P : Cockpit -> Prop) (pressed : bool)
  (action : Cockpit -> Cockpit) (c : Cockpit) :
  (forall c', P c' -> P (action c')) -> P c -> P (when pressed action c).
Proof. intros Hact Hc. destruct pressed; cbn; auto. Qed.

Lemma spin_keeps (dx dy dz limit : R) (c : Cockpit) :
  cockpit_ok limit c ->
  cockpit_ok limit (on_rocket (add_angular_velocity dx dy dz) c).
Proof. intros H. exact H. Qed.

Lemma key_w_keeps (limit : R) (c : Cockpit) :
  cockpit_ok limit c -> cockpit_ok limit (on_rocket key_w c).
Proof.
  intros ((Ht & Hd & Hf & Hm & Hc) & Hmx & Ha).
  unfold cockpit_ok, flightworthy, on_rocket, key_w; cbn.
  destruct (py_max_cases 500 (dry_mass (fst c) - 20)) as [[? ->] | [? ->]];
    repeat split; try assumption; lra.
Qed.

Lemma key_s_keeps (limit : R) (c : Cockpit) :
  cockpit_ok limit c -> cockpit_ok limit (on_rocket key_s c).
Proof.
  intros ((Ht & Hd & Hf & Hm & Hc) & Hmx & Ha).
  unfold cockpit_ok, flightworthy, on_rocket, key_s; cbn.
  destruct (py_min_cases 10000 (dry_mass (fst c) + 20)) as [[? ->] | [? ->]];
    repeat split; try assumption; lra.
Qed.

Lemma key_a_keeps (limit : R) (c : Cockpit) :
  cockpit_ok limit c -> cockpit_ok limit (on_rocket key_a c).
Proof.
  intros ((Ht & Hd & Hf & Hm & Hc) & Hmx & Ha).
  unfold cockpit_ok, flightworthy, on_rocket, key_a; cbn.
  destruct (py_max_cases 0 (thrust (fst c) - 1000)) as [[? ->] | [? ->]];
    repeat split; try assumption; lra.
Qed.

Lemma key_d_keeps (limit : R) (c : Cockpit) :
  cockpit_ok limit c -> cockpit_ok limit (on_rocket key_d c).
Proof.
  intros ((Ht & Hd & Hf & Hm & Hc) & Hmx & Ha).
  unfold cockpit_ok, flightworthy, on_rocket, key_d; cbn.
  destruct (py_min_cases (max_thrust (fst c)) (thrust (fst c) + 1000))
    as [[? ->] | [? ->]];
    repeat split; try assumption; lra.
Qed.

Lemma key_q_keeps (limit : R) (c : Cockpit) :
  cockpit_ok limit c -> cockpit_ok limit (on_air key_q c).
Proof.
  intros ((Ht & Hd & Hf & Hm & Hc) & Hmx & Ha).
  unfold cockpit_ok, flightworthy, on_air, key_q; cbn.
  destruct (py_max_cases 0.01 (snd c - 0.02)) as [[? ->] | [? ->]];
    repeat split; try assumption; lra.
Qed.

Lemma key_e_keeps (limit : R) (c : Cockpit) :
  cockpit_ok limit c -> cockpit_ok limit (on_air key_e c).
Proof.
  intros ((Ht & Hd & Hf & Hm & Hc) & Hmx & Ha).
  unfold cockpit_ok, flightworthy, on_air, key_e; cbn.
  destruct (py_min_cases 5 (snd c + 0.02)) as [[? ->] | [? ->]];
    repeat split; try assumption; lra.
Qed.

Lemma key_z_keeps (limit : R) (c : Cockpit) :
  cockpit_ok limit c -> cockpit_ok limit (on_rocket key_z c).
Proof.
  intros ((Ht & Hd & Hf & Hm & Hc) & Hmx & Ha).
  unfold cockpit_ok, flightworthy, on_rocket, key_z; cbn.
  destruct (py_max_cases 0.1 (drag_coefficient (fst c) - 0.02))
    as [[? ->] | [? ->]];
    repeat split; try assumption; lra.
Qed.

Lemma key_x_keeps (limit : R) (c : Cockpit) :
  cockpit_ok limit c -> cockpit_ok limit (on_rocket key_x c).
Proof.
  intros ((Ht & Hd & Hf & Hm & Hc) & Hmx & Ha).
  unfold cockpit_ok, flightworthy, on_rocket, key_x; cbn.
  destruct (py_min_cases 2 (drag_coefficient (fst c) + 0.02))
    as [[? ->] | [? ->]];
    repeat split; try assumption; lra.
Qed.

Lemma apply_controls_keeps (limit : R) (keys : Keys) (clock_time : R)
  (c : Cockpit) :
  cockpit_ok limit c -> cockpit_ok limit (apply_controls keys clock_time c).
Proof.
  intros H. unfold apply_controls. cbv zeta.
  repeat (apply when_keeps;
          [first [exact (key_w_keeps limit) | exact (key_s_keeps limit) | exact (key_a_keeps limit)
                 | exact (key_d_keeps limit) | exact (key_q_keeps limit) | exact (key_e_keeps limit)
                 | exact (key_z_keeps limit) | exact (key_x_keeps limit)
                 | intros c'; apply spin_keeps] |]).
  exact H.
Qed.

(** X20: the held keys keep the cockpit in range.  From a rocket with
    [0 <= thrust <= max_thrust], [500 <= dry_mass <= 10000],
    [fuel_mass >= 0], [mass = dry_mass + fuel_mass] and
    [0.1 <= drag_coefficient <= 2] and an [air_density] in [[0.01, 5]],
    lines 763-795 lead to a rocket and a density in the same ranges,
    with the same [max_thrust], whichever keys are held together. *)
Theorem controls_keep_ranges (keys : Keys) (clock_time : R) (c : Cockpit) :
  flightworthy (fst c) -> 0.01 <= snd c <= 5 ->
  let c' := apply_controls keys clock_time c in
  flightworthy (fst c') /\ max_thrust (fst c') = max_thrust (fst c)
  /\ 0.01 <= snd c' <= 5.
Proof.
  intros Hfw Ha. cbv zeta.
  apply (apply_controls_keeps (max_thrust (fst c)) keys clock_time c).
  repeat split; try assumption; apply Hfw || apply Ha.
Qed.

(** Every key held at once, from the cockpit of [main]. *)
Lemma controls_keep_ranges_witness :
  let keys := {| K_UP := true; K_DOWN := true; K_LEFT := true;
                 K_RIGHT := true; K_1 := true; K_2 := true;
                 K_w := true; K_s := true; K_a := true; K_d := true;
                 K_q := true; K_e := true; K_z := true; K_x := true |} in
  let c' := apply_controls keys 16 cockpit_init in
  flightworthy (fst c') /\ max_thrust (fst c') = 200000
  /\ 0.01 <= snd c' <= 5.
Proof.
  cbv zeta.
  match goal with
  | |- flightworthy (fst (apply_controls ?k ?t ?c)) /\ _ =>
      apply (controls_keep_ranges k t c)
  end.
  - unfold flightworthy; cbn. lra.
  - cbn. lra.
Defined.


Lemma apply_controls_limit (keys : Keys) (clock_time : R) (c : Cockpit) :
  flightworthy (fst c) -> 0.01 <= snd c <= 5 ->
  cockpit_ok (max_thrust (fst c)) (apply_controls keys clock_time c).
Proof.
  intros Hfw Ha. apply apply_controls_keeps. repeat split; apply Hfw || apply Ha.
Qed.





(** ** The particle system *)

Lemma update_loop_all_survive (dt : R) (todo kept : list Particle) :
  Forall (fun p => Rleb (p_life (age dt p)) 0 = false) todo ->
  update_loop dt kept todo = Some (kept ++ map (age dt) todo).
Proof.
  intros Hall. revert kept.
  induction Hall as [| p todo Hp _ IH]; intros kept; cbn [update_loop map].
  - now rewrite app_nil_r.
  - rewrite Hp, IH, <- app_assoc. reflexivity.
Qed.

Lemma filter_all_survive (dt : R) (l : list Particle) :
  Forall (fun p => Rleb (p_life (age dt p)) 0 = false) l ->
  filter survives (map (age dt) l) = map (age dt) l.
Proof.
  induction 1 as [| p l Hp _ IH]; cbn [map filter]; [reflexivity |].
  unfold survives at 1. now rewrite Hp, IH.
Qed.

Lemma update_loop_ordered (dt : R) (todo : list Particle) :
  lives_ordered todo ->
  update_loop dt [] todo = Some (filter survives (map (age dt) todo)).
Proof.
  induction todo as [| p todo IH]; intros Hord; [reflexivity |].
  destruct Hord as (_ & Hmin & Hrest).
  cbn [update_loop map filter]. unfold survives at 1.
  destruct (Rleb (p_life (age dt p)) 0) eqn:Hdead; cbn [negb].
  - now apply IH.
  - assert (Hall : Forall (fun q => Rleb (p_life (age dt q)) 0 = false) todo).
    { apply Forall_forall. intros q Hq. specialize (Hmin q Hq).
      unfold Rleb in *. cbn [age p_life] in *.
      destruct (Rle_dec (p_life p - dt * 2) 0); [discriminate |].
      destruct (Rle_dec (p_life q - dt * 2) 0); [lra | reflexivity]. }
    cbn [app]. rewrite (update_loop_all_survive dt todo [_] Hall).
    now rewrite (filter_all_survive dt todo Hall).
Qed.

Lemma lives_ordered_aged (dt : R) (l : list Particle) :
  0 <= dt -> lives_ordered l -> lives_ordered (map (age dt) l).
Proof.
  intros Hdt. induction l as [| p l IH]; intros Hord; [exact I |].
  destruct Hord as (Hone & Hmin & Hrest). cbn [map lives_ordered].
  split; [cbn; lra | split; [| now apply IH]].
  intros q Hq. apply in_map_iff in Hq. destruct Hq as (q0 & <- & Hq0).
  specialize (Hmin q0 Hq0). cbn. lra.
Qed.

Lemma lives_ordered_filter (f : Particle -> bool) (l : list Particle) :
  lives_ordered l -> lives_ordered (filter f l).
Proof.
  induction l as [| p l IH]; intros Hord; [exact I |].
  destruct Hord as (Hone & Hmin & Hrest). cbn [filter].
  destruct (f p); [| now apply IH].
  cbn [lives_ordered]. split; [exact Hone | split; [| now apply IH]].
  intros q Hq. apply filter_In in Hq. now apply Hmin.
Qed.

Lemma lives_ordered_le_1 (l : list Particle) (q : Particle) :
  lives_ordered l -> In q l -> p_life q <= 1.
Proof.
  induction l as [| p l IH]; intros Hord Hq; [contradiction |].
  destruct Hord as (Hone & _ & Hrest).
  destruct Hq as [<- | Hq]; [exact Hone | now apply IH].
Qed.

Lemma lives_ordered_snoc (l : list Particle) (p : Particle) :
  lives_ordered l -> p_life p = 1 -> lives_ordered (l ++ [p]).
Proof.
  intros Hord Hp. induction l as [| q l IH]; cbn [app lives_ordered].
  - repeat split; [lra | intros ? []].
  - destruct Hord as (Hone & Hmin & Hrest).
    split; [exact Hone | split; [| now apply IH]].
    intros r Hr. apply in_app_or in Hr. destruct Hr as [Hr | [<- | []]].
    + now apply Hmin.
    + lra.
Qed.

Lemma lives_ordered_emit (l : list Particle) (position velocity : Vec3)
  (count : nat) (draws : nat -> Draw) :
  lives_ordered l -> lives_ordered (emit l position velocity count draws).
Proof.
  unfold emit. generalize (seq 0 count) as turns. intros turns. revert l.
  induction turns as [| i turns IH]; intros l Hord; cbn [fold_left].
  - exact Hord.
  - apply IH. now apply lives_ordered_snoc.
Qed.

(** X23: on a list whose lives do not decrease from front to back and do
    not exceed 1, [ParticleSystem.update] with [dt >= 0] does not raise: it
    ages every particle and drops exactly those whose life is then 0 or
    less, which are the oldest ones at the front.  What is left is ordered
    in the same way and every life in it is positive. *)
Theorem particles_update_drops_the_dead (particles : list Particle)
  (dt : R) :
  0 <= dt -> lives_ordered particles ->
  let rest := filter survives (map (age dt) particles) in
  particles_update particles dt = Some rest
  /\ lives_ordered rest
  /\ Forall (fun p => 0 < p_life p <= 1) rest.
Proof.
  intros Hdt Hord. cbv zeta.
  split; [now apply update_loop_ordered |].
  assert (Hleft : lives_ordered (filter survives (map (age dt) particles)))
    by (apply lives_ordered_filter, lives_ordered_aged; assumption).
  split; [exact Hleft |].
  apply Forall_forall. intros p Hp. split.
  - apply filter_In in Hp. destruct Hp as [_ Hs].
    unfold survives, Rleb in Hs.
    destruct (Rle_dec (p_life p) 0); [discriminate | lra].
  - now apply (lives_ordered_le_1 _ p Hleft).
Qed.

(** An old particle and a fresh one, a tenth of a second later: the old
    one is gone. *)
Lemma particles_update_drops_the_dead_witness :
  let old := {| p_pos := vec 0 0 0; p_vel := vec 1 0 0;
                p_life := 0.1; p_size := 0.4 |} in
  let fresh := {| p_pos := vec 0 0 0; p_vel := vec 0 2 0;
                  p_life := 1; p_size := 0.5 |} in
  particles_update [old; fresh] 0.1
  = Some (filter survives (map (age 0.1) [old; fresh]))
  /\ length (filter survives (map (age 0.1) [old; fresh])) = 1%nat.
Proof.
  cbv zeta. split.
  - apply particles_update_drops_the_dead; [lra |].
    cbn. repeat split; try lra.
    + intros q [<- | []]. cbn. lra.
    + intros q [].
  - cbn [map filter]. unfold survives. cbn [age p_life].
    rewrite (Rleb_true (0.1 - 0.1 * 2) 0) by lra.
    rewrite (Rleb_false (1 - 0.1 * 2) 0) by lra. reflexivity.
Defined.

Lemma update_loop_blocked (dt : R) (todo kept : list Particle)
  (q : Particle) :
  kept <> [] -> In q todo -> Rleb (p_life (age dt q)) 0 = true ->
  update_loop dt kept todo = None.
Proof.
  revert kept. induction todo as [| p todo IH]; intros kept Hk Hq Hdead;
    [contradiction |].
  cbn [update_loop].
  destruct (Rleb (p_life (age dt p)) 0) eqn:Hp.
  - destruct kept; [contradiction | reflexivity].
  - destruct Hq as [-> | Hq]; [congruence |].
    apply IH; [| exact Hq | exact Hdead].
    intros Habs. apply app_eq_nil in Habs. destruct Habs; discriminate.
Qed.

(** X24: [ParticleSystem.update] raises as soon as a particle that dies
    in this call stands behind one that survives it: the [list.remove] of
    line 29 then compares two different particle dictionaries before it
    finds the dying one. *)
Theorem particles_update_raises_on_disorder
  (before between behind : list Particle) (p q : Particle) (dt : R) :
  0 < p_life p - dt * 2 -> p_life q - dt * 2 <= 0 ->
  particles_update (before ++ p :: between ++ q :: behind) dt = None.
Proof.
  intros Hp Hq. unfold particles_update.
  assert (Hgen : forall kept,
             update_loop dt kept (before ++ p :: between ++ q :: behind)
             = None).
  { induction before as [| b before IH]; intros kept; cbn [app update_loop].
    - rewrite (Rleb_false (p_life (age dt p)) 0) by (cbn; lra).
      apply (update_loop_blocked dt _ _ q).
      + intros Habs. apply app_eq_nil in Habs. destruct Habs; discriminate.
      + apply in_or_app. right. left. reflexivity.
      + apply Rleb_true. cbn. lra.
    - destruct (Rleb (p_life (age dt b)) 0).
      + destruct kept; [apply IH | reflexivity].
      + apply IH. }
  apply Hgen.
Qed.

(** A fresh particle in front of an old one. *)
Lemma particles_update_raises_on_disorder_witness :
  particles_update
    [ {| p_pos := vec 0 0 0; p_vel := vec 0 2 0; p_life := 1;
         p_size := 0.5 |};
      {| p_pos := vec 0 0 0; p_vel := vec 1 0 0; p_life := 0.1;
         p_size := 0.4 |} ] 0.1
  = None.
Proof.
  apply (particles_update_raises_on_disorder [] [] []); cbn; lra.
Defined.

(** X25: the exhaust step of [Rocket.update] (lines 233-238) keeps the
    particle list ordered, so it never raises: from a list whose lives do
    not decrease from front to back and do not exceed 1 (the empty list of
    a new rocket is one), with [dt > 0] and whatever the random draws, it
    returns a list ordered in the same way, in which every life is
    positive and below 1. *)
Theorem exhaust_never_raises (s : Rocket) (dt : R)
  (particles : list Particle) (draws : nat -> Draw) :
  0 < dt -> lives_ordered particles ->
  exists rest : list Particle,
    exhaust s dt particles draws = Some rest
    /\ lives_ordered rest
    /\ Forall (fun p => 0 < p_life p < 1) rest.
Proof.
  intros Hdt Hord. unfold exhaust. cbv zeta.
  set (emitted := if Rgtb (thrust s) 0 then _ else particles).
  assert (Hem : lives_ordered emitted).
  { unfold emitted. destruct (Rgtb (thrust s) 0); [| exact Hord].
    now apply lives_ordered_emit. }
  exists (filter survives (map (age dt) emitted)).
  split; [now apply update_loop_ordered |].
  assert (Hleft : lives_ordered (filter survives (map (age dt) emitted)))
    by (apply lives_ordered_filter, lives_ordered_aged; [lra | exact Hem]).
  split; [exact Hleft |].
  apply Forall_forall. intros p Hp.
  apply filter_In in Hp. destruct Hp as [Hin Hs]. split.
  - unfold survives, Rleb in Hs.
    destruct (Rle_dec (p_life p) 0); [discriminate | lra].
  - apply in_map_iff in Hin. destruct Hin as (p0 & <- & Hp0).
    pose proof (lives_ordered_le_1 _ p0 Hem Hp0). cbn. lra.
Qed.

(** The first tick of the default rocket: four particles are emitted and
    all four are still there at [dt = 0.1]. *)
Lemma exhaust_never_raises_witness :
  exists rest : list Particle,
    exhaust Rocket_init 0.1 []
      (fun _ => {| d_pos := vec 0 0 0; d_vel := vec 0 0 0; d_size := 0.3 |})
    = Some rest
    /\ lives_ordered rest
    /\ Forall (fun p => 0 < p_life p < 1) rest.
Proof.
  apply exhaust_never_raises; [lra | exact I].
Defined.

(** ** The clock and the display *)

(** X26: the time-scale keys keep the time scale within [[0.1, 5]], and
    with such a scale and a non-negative clock tick the step handed to
    [update] is never negative: it is 0 when paused and
    [tick / 1000 * time_scale] otherwise. *)
Theorem frame_step_is_never_negative (tick_ms time_scale : R)
  (paused : bool) :
  0 <= tick_ms -> 0.1 <= time_scale <= 5 ->
  0.1 <= time_scale_up time_scale <= 5
  /\ 0.1 <= time_scale_down time_scale <= 5
  /\ 0 <= frame_dt tick_ms paused time_scale
  /\ frame_dt tick_ms true time_scale = 0
  /\ frame_dt tick_ms false time_scale = tick_ms / 1000 * time_scale.
Proof.
  intros Htick Hts. unfold time_scale_up, time_scale_down, frame_dt.
  repeat split.
  - destruct (py_min_cases (time_scale * 1.5) 5) as [[? ->] | [? ->]]; lra.
  - destruct (py_min_cases (time_scale * 1.5) 5) as [[? ->] | [? ->]]; lra.
  - destruct (py_max_cases (time_scale / 1.5) 0.1) as [[? ->] | [? ->]]; lra.
  - destruct (py_max_cases (time_scale / 1.5) 0.1) as [[? ->] | [? ->]]; lra.
  - destruct paused; cbn [negb]; [lra |].
    apply Rmult_le_pos; lra.
Qed.

(** A 16 ms tick at the fastest time scale. *)
Lemma frame_step_is_never_negative_witness :
  time_scale_up 5 = 5 /\ frame_dt 16 false 5 = 0.08.
Proof.
  destruct (frame_step_is_never_negative 16 5 false)
    as (_ & _ & _ & _ & Hdt); [lra | lra |].
  split; [| rewrite Hdt; lra].
  unfold time_scale_up. destruct (py_min_cases (5 * 1.5) 5) as [[? ->] | [? ->]];
    lra.
Defined.

Lemma atmosphere_blend_range (altitude : R) :
  0 <= atmosphere_blend altitude <= 1.
Proof.
  unfold atmosphere_blend, Rltb. cbv zeta.
  destruct (Rlt_dec altitude 0) as [Hneg | Hpos].
  - destruct (py_min_cases (0 / 50000) 1) as [[? ->] | [? ->]]; lra.
  - destruct (py_min_cases (altitude / 50000) 1) as [[? ->] | [? ->]]; lra.
Qed.

(** X27: [draw_atmosphere] blends by a factor in [[0, 1]] for every
    altitude: 0 at and below the ground, [altitude / 50000] up to 50000
    and 1 above.  The clear colour is therefore always between the two
    sky colours, channel by channel. *)
Theorem sky_color_is_a_blend (altitude : R) :
  0 <= atmosphere_blend altitude <= 1
  /\ (altitude <= 0 -> atmosphere_blend altitude = 0)
  /\ (0 <= altitude <= 50000 ->
      atmosphere_blend altitude = altitude / 50000)
  /\ (50000 <= altitude -> atmosphere_blend altitude = 1)
  /\ 0 <= vx (sky_color altitude) <= 0.53
  /\ 0 <= vy (sky_color altitude) <= 0.81
  /\ 0.1 <= vz (sky_color altitude) <= 0.92.
Proof.
  pose proof (atmosphere_blend_range altitude) as Hb.
  split; [exact Hb |]. split; [| split; [| split]].
  - intros Ha. unfold atmosphere_blend, Rltb. cbv zeta.
    destruct (Rlt_dec altitude 0).
    + destruct (py_min_cases (0 / 50000) 1) as [[? ->] | [? ->]]; lra.
    + replace altitude with 0 by lra.
      destruct (py_min_cases (0 / 50000) 1) as [[? ->] | [? ->]]; lra.
  - intros Ha. unfold atmosphere_blend, Rltb. cbv zeta.
    destruct (Rlt_dec altitude 0); [lra |].
    destruct (py_min_cases (altitude / 50000) 1) as [[? ->] | [? ->]]; lra.
  - intros Ha. unfold atmosphere_blend, Rltb. cbv zeta.
    destruct (Rlt_dec altitude 0); [lra |].
    destruct (py_min_cases (altitude / 50000) 1) as [[? ->] | [? ->]]; lra.
  - unfold sky_color. cbv zeta.
    set (b := atmosphere_blend altitude) in *.
    unfold vadd, vtimes; cbn [vx vy vz]. repeat split; nra.
Qed.

(** X28: [draw_progress_bar] never divides by a non-positive
    [max_value] and never overfills: the fraction is at most 1, the filled
    quad is drawn only for a positive fraction and, on a bar of
    non-negative width, is no wider than the bar, also when [value]
    exceeds [max_value]. *)
Theorem progress_bar_never_overfills (width value max_value : R) :
  0 <= width ->
  progress_percentage value max_value <= 1
  /\ (max_value <= 0 -> progress_fill width value max_value = None)
  /\ (value <= 0 -> progress_fill width value max_value = None)
  /\ (forall fill_width,
         progress_fill width value max_value = Some fill_width ->
         0 <= fill_width <= width
         /\ 0 < max_value /\ 0 < value)
  /\ (0 < max_value -> max_value <= value ->
      progress_fill width value max_value = Some (width * 1)).
Proof.
  intros Hw.
  assert (Hp : progress_percentage value max_value <= 1).
  { unfold progress_percentage, Rgtb.
    destruct (Rgt_dec max_value 0); [| lra].
    destruct (py_min_cases (value / max_value) 1) as [[? ->] | [? ->]]; lra. }
  assert (Hsign : forall m, 0 < m -> value <= 0 -> value / m <= 0).
  { intros m Hm Hv. unfold Rdiv.
    pose proof (Rinv_0_lt_compat m Hm). nra. }
  assert (Hsign' : forall m, 0 < m -> 0 < value / m -> 0 < value).
  { intros m Hm Hv. destruct (Rle_dec value 0) as [Hle | Hgt]; [| lra].
    specialize (Hsign m Hm Hle). lra. }
  split; [exact Hp | split; [| split; [| split]]].
  - intros Hm. unfold progress_fill, progress_percentage. cbv zeta.
    rewrite (Rgtb_false max_value 0 Hm). now rewrite Rgtb_false by lra.
  - intros Hv. unfold progress_fill, progress_percentage, Rgtb. cbv zeta.
    destruct (Rgt_dec max_value 0) as [Hm | Hm].
    + specialize (Hsign max_value Hm Hv).
      destruct (py_min_cases (value / max_value) 1) as [[? ->] | [? ->]];
        destruct (Rgt_dec _ 0); try reflexivity; lra.
    + destruct (Rgt_dec 0 0); [lra | reflexivity].
  - intros fill_width Hfill. unfold progress_fill in Hfill. cbv zeta in Hfill.
    unfold Rgtb in Hfill at 1.
    destruct (Rgt_dec (progress_percentage value max_value) 0) as [Hpos | ];
      [| discriminate].
    injection Hfill as <-.
    split; [split; nra |].
    unfold progress_percentage, Rgtb in Hpos.
    destruct (Rgt_dec max_value 0) as [Hm | Hm]; [| lra].
    split; [lra |].
    destruct (py_min_cases (value / max_value) 1) as [[? Heq] | [? Heq]];
      rewrite Heq in Hpos.
    + apply (Hsign' max_value); lra.
    + apply (Hsign' max_value); lra.
  - intros Hm Hv. unfold progress_fill, progress_percentage. cbv zeta.
    rewrite (Rgtb_true max_value 0) by lra.
    assert (Hq : 1 <= value / max_value).
    { apply Rmult_le_reg_r with (r := max_value); [lra |].
      unfold Rdiv. rewrite Rmult_assoc, Rinv_l by lra. lra. }
    destruct (py_min_cases (value / max_value) 1) as [[? ->] | [? ->]].
    + now rewrite (Rgtb_true 1 0) by lra.
    + replace (value / max_value) with 1 by lra.
      now rewrite (Rgtb_true 1 0) by lra.
Qed.

(** The fuel bar of a half-empty tank on a bar 320 wide. *)
Lemma progress_bar_never_overfills_witness :
  progress_percentage 1500 3000 <= 1
  /\ progress_fill 320 1500 3000 = Some 160.
Proof.
  destruct (progress_bar_never_overfills 320 1500 3000) as (Hp & _);
    [lra |].
  split; [exact Hp |].
  unfold progress_fill, progress_percentage. cbv zeta.
  rewrite (Rgtb_true 3000 0) by lra.
  destruct (py_min_cases (1500 / 3000) 1) as [[? ->] | [? ->]]; try lra.
  rewrite Rgtb_true by lra. f_equal. lra.
Defined.

(** X29: after a call with [dt > 0] that returns, from a throttle
    within [[0, max_thrust]], the hull colour of [draw_rocket] is computed
    with [heat_factor = engine_temperature / 2300], the cap at 1 playing
    no part, and its channels lie between the base and the hot colour:
    red in [[0.9, 1]], green in [[0.1, 0.4]], blue in [[0, 0.1]]. *)
Theorem hull_color_follows_throttle (s : Rocket) (dt rho g : R) :
  0 < dt -> max_thrust s <> 0 -> 0 <= thrust s <= max_thrust s ->
  let s' := fst (update s dt rho g) in
  heat_factor s' = engine_temperature s' / 2300
  /\ 0.9 <= vx (hull_color s') <= 1
  /\ 0.1 <= vy (hull_color s') <= 0.4
  /\ 0 <= vz (hull_color s') <= 0.1.
Proof.
  intros Hdt Hnz Hin. cbv zeta.
  pose proof (update_engine_temperature_bounds s dt rho g Hdt Hnz Hin) as HT.
  set (s' := fst (update s dt rho g)) in *.
  assert (Hh : heat_factor s' = engine_temperature s' / 2300).
  { unfold heat_factor.
    destruct (py_min_cases (engine_temperature s' / 2300) 1)
      as [[? ->] | [? ->]]; lra. }
  split; [exact Hh |].
  unfold hull_color. cbv zeta. rewrite Hh.
  cbn [vx vy vz]. repeat split; lra.
Qed.

(** The default rocket after one tick: 1050 K. *)
Lemma hull_color_follows_throttle_witness :
  let s' := fst (update Rocket_init 1 1.225 9.81) in
  heat_factor s' = engine_temperature s' / 2300
  /\ 0.9 <= vx (hull_color s') <= 1
  /\ 0.1 <= vy (hull_color s') <= 0.4
  /\ 0 <= vz (hull_color s') <= 0.1.
Proof.
  apply (hull_color_follows_throttle Rocket_init 1 1.225 9.81); cbn; lra.
Defined.
